(** * my_dress_up_jupyter: table of contents and heading anchors for notebooks

    A shallow embedding of [src/my_dress_up_jupyter.py] and the properties of
    its transformation.

    Conventions of the embedding.
    - A Python [str] is a [string]; one [ascii] stands for one character
      (code points below 256).
    - The heading table, a [dict] from [int] to a heading [dict], is a
      [gmap nat Heading]; [len(titles)] is [size titles].
    - A cell [dict] is a record with the two fields the program reads,
      [cell_type] and [source], and the remaining fields kept as they are.
      The cells of a document are separate objects, as [json.load] builds
      them, so that the assignment to the source of one cell reaches no other
      cell.
    - A Python exception is an [Err] result.
    - [generate_corpus_id] draws a random identifier; the embedding takes the
      drawn identifier as an argument. *)

From Stdlib Require Import ZArith Lia String Ascii DecimalString DecimalNat.
From stdpp Require Import base option list gmap strings sorting.

Local Open Scope Z_scope.
Local Open Scope stdpp_scope.

(** ** Exceptions *)

Inductive py_error : Type :=
  | ZeroDivisionError
  | IndexError
  | KeyError.

Inductive result (A : Type) : Type :=
  | Ok (a : A)
  | Err (e : py_error).
Arguments Ok {A} a.
Arguments Err {A} e.

Definition rbind {A B : Type} (r : result A) (k : A -> result B) : result B :=
  match r with
  | Ok a => k a
  | Err e => Err e
  end.

Notation "'let!' x ':=' r 'in' k" := (rbind r (fun x => k))
  (at level 10, x pattern, r at level 100, k at level 200).

(** ** Characters and strings of Python *)

Module Py.

Definition quote : string := String (ascii_of_nat 34) EmptyString.
Definition tab : string := String (ascii_of_nat 9) EmptyString.
Definition newline : string := String (ascii_of_nat 10) EmptyString.

(** [s.startswith(p)] *)
Definition startswith (p s : string) : bool := String.prefix p s.

(** [len(re.findall(c, s))] for a one-character pattern [c] that is not a
    regular-expression metacharacter: the occurrences of [c] in [s]. *)
Fixpoint count_char (c : ascii) (s : string) : nat :=
  match s with
  | EmptyString => O
  | String d s' => ((if Ascii.eqb c d then 1 else 0) + count_char c s')%nat
  end.

Fixpoint drop_chars (n : nat) (s : string) : string :=
  match n, s with
  | O, _ => s
  | S _, EmptyString => EmptyString
  | S k, String _ s' => drop_chars k s'
  end.

(** [s[i:]]: a negative start counts from the end of the string. *)
Definition slice_from (i : Z) (s : string) : string :=
  if i <? 0
  then drop_chars (Z.to_nat (Z.max 0 (Z.of_nat (String.length s) + i))) s
  else drop_chars (Z.to_nat i) s.

(** [c.isspace()] on the code points below 256. *)
Definition isspace (c : ascii) : bool :=
  let n := nat_of_ascii c in
  ((9 <=? n) && (n <=? 13) || (28 <=? n) && (n <=? 32)
   || (n =? 133) || (n =? 160))%nat.

(** [s.rstrip()] *)
Fixpoint rstrip (s : string) : string :=
  match s with
  | EmptyString => EmptyString
  | String c s' =>
      match rstrip s' with
      | EmptyString => if isspace c then EmptyString else String c EmptyString
      | r => String c r
      end
  end.

(** [s.replace(a, b)] for one-character [a] and [b]. *)
Fixpoint replace_char (a b : ascii) (s : string) : string :=
  match s with
  | EmptyString => EmptyString
  | String c s' => String (if Ascii.eqb c a then b else c) (replace_char a b s')
  end.

Fixpoint repeat_nat (s : string) (n : nat) : string :=
  match n with
  | O => EmptyString
  | S k => s +:+ repeat_nat s k
  end.

(** [s * n]: empty when [n] is not positive. *)
Definition repeat (s : string) (n : Z) : string := repeat_nat s (Z.to_nat n).

(** [str(n)] for a natural number. *)
Definition str (n : nat) : string := NilEmpty.string_of_uint (Nat.to_uint n).

(** [s.split(sep)[0]] for a non-empty [sep]: the part of [s] before the
    first occurrence of [sep], all of [s] when there is none. *)
Fixpoint split_head (sep s : string) : string :=
  match s with
  | EmptyString => EmptyString
  | String c s' =>
      if String.prefix sep s then EmptyString else String c (split_head sep s')
  end.

(** [\w] of the [re] module on the code points below 256. *)
Definition word_char (c : ascii) : bool :=
  let n := nat_of_ascii c in
  ((48 <=? n) && (n <=? 57) || (65 <=? n) && (n <=? 90)
   || (97 <=? n) && (n <=? 122) || (n =? 95)
   || (n =? 170) || (n =? 181) || (n =? 186)
   || (n =? 178) || (n =? 179) || (n =? 185)
   || (188 <=? n) && (n <=? 190)
   || (192 <=? n) && (n <=? 214) || (216 <=? n) && (n <=? 246)
   || (248 <=? n) && (n <=? 255))%nat.

Fixpoint take_chars (n : nat) (s : string) : string :=
  match n, s with
  | O, _ => EmptyString
  | S _, EmptyString => EmptyString
  | S k, String c s' => String c (take_chars k s')
  end.

(** The end of the pattern [(?:$|\W)] on what follows the literal: [$]
    is tried first and matches at the end of the subject or before its last
    newline, consuming nothing; otherwise [\W] consumes one character. *)
Definition match_tail (rest : string) : option nat :=
  if String.eqb rest EmptyString || String.eqb rest newline then Some O
  else match rest with
       | String c _ => if word_char c then None else Some 1%nat
       | EmptyString => None
       end.

(** One attempt of [((?:^|\W)lit(?:$|\W))] at the current position: the
    length of the match. [at_start] tells whether the position is the
    start of the subject, where [^] is tried before [\W]. *)
Definition match_here (lit : string) (at_start : bool) (s : string) : option nat :=
  let n := String.length lit in
  let second :=
    match s with
    | String c s' =>
        if negb (word_char c) && String.prefix lit s'
        then (fun t => S n + t)%nat <$> match_tail (drop_chars n s')
        else None
    | EmptyString => None
    end in
  if at_start && String.prefix lit s
  then match match_tail (drop_chars n s) with
       | Some t => Some (n + t)%nat
       | None => second
       end
  else second.

(** The scan of [re.sub(pattern, r'(#\1)', s)] for the pattern above: the
    leftmost match at each position is replaced by itself in parentheses
    after a [#], and the scan goes on after it. [skip] counts the
    characters of the last match still to pass over. A match of length
    zero needs an empty [lit], which the program never builds (an anchor
    ends in an underscore and a number). *)
Fixpoint sub_scan (lit : string) (at_start : bool) (skip : nat) (s : string) : string :=
  match skip with
  | S k =>
      match s with
      | EmptyString => EmptyString
      | String _ s' => sub_scan lit false k s'
      end
  | O =>
      match match_here lit at_start s with
      | Some len =>
          "(#" +:+ take_chars len s +:+ ")" +:+
          match s with
          | EmptyString => EmptyString
          | String c s' =>
              match len with
              | O => String c (sub_scan lit false O s')
              | S k => sub_scan lit false k s'
              end
          end
      | None =>
          match s with
          | EmptyString => EmptyString
          | String c s' => String c (sub_scan lit false O s')
          end
      end
  end.

(** [re.sub(f'((?:^|\\W){re.escape(lit)}(?:$|\\W))', r'(#\1)', s)] *)
Definition sub_term (lit s : string) : string := sub_scan lit true O s.

End Py.

(** ** Documents *)

(** The values of the fields the program passes through. A number is kept
    as its literal text. *)
#[local] Unset Elimination Schemes.
Inductive json : Type :=
  | JNull
  | JBool (b : bool)
  | JNum (literal : string)
  | JStr (s : string)
  | JArr (items : list json)
  | JObj (members : list (string * json)).
#[local] Set Elimination Schemes.

Record Cell : Type := mkCell {
  cell_type : string;
  source : list string;
  cell_fields : list (string * json)
}.

Record Document : Type := mkDocument {
  cells : list Cell;
  doc_fields : list (string * json)
}.

(** [cell['source'] = new_source] *)
Definition set_source (cell : Cell) (new_source : list string) : Cell :=
  {| cell_type := cell_type cell;
     source := new_source;
     cell_fields := cell_fields cell |}.

(** [document['cells'] = new_cells] *)
Definition set_cells (document : Document) (new_cells : list Cell) : Document :=
  {| cells := new_cells; doc_fields := doc_fields document |}.

(** The heading [dict] with the keys ['title'], ['level'] and ['anchor']. *)
Record Heading : Type := mkHeading {
  title : string;
  level : Z;
  anchor : string
}.

(** [l[i] = x] on a Python list: out of range raises [IndexError]. *)
Definition list_assign {A : Type} (l : list A) (i : nat) (x : A) : result (list A) :=
  if decide (i < length l)%nat then Ok (<[i := x]> l) else Err IndexError.

(** ** The program *)

Definition maquillate (title : string) (level : Z) (colors : list string) : result string :=
  if decide (length colors = O) then Err ZeroDivisionError
  else match colors !! Z.to_nat (level mod Z.of_nat (length colors)) with
       | Some color =>
           Ok ("<span style=" +:+ Py.quote +:+ "color: " +:+ color +:+ Py.quote
               +:+ ">" +:+ title +:+ "</span>")
       | None => Err IndexError
       end.

(** [if colors:] holds for a list that is present and not empty. *)
Definition truthy (colors : option (list string)) : option (list string) :=
  match colors with
  | Some (c :: cs) => Some (c :: cs)
  | _ => None
  end.

Definition term_i : string := "<a class=" +:+ Py.quote +:+ "anchor" +:+ Py.quote +:+ " id=" +:+ Py.quote.
Definition term_f : string := Py.quote +:+ "></a>" +:+ Py.newline.

Definition create_source_anchor (source : list string) (values : Heading)
    (colors : option (list string)) : result (list string) :=
  let full_term := term_i +:+ anchor values +:+ term_f in
  let! title' := match truthy colors with
                  | Some cs => maquillate (title values) (level values) cs
                  | None => Ok (title values)
                  end in
  let new_source := full_term :: source in
  list_assign new_source 1 ("#" +:+ Py.repeat "#" (level values) +:+ " " +:+ title').

(** The body of the loop of [extract_info] for one line [word]. *)
Definition extract_line (titles : gmap nat Heading) (word : string) : gmap nat Heading :=
  if Py.startswith "#" word then
    let level := Z.of_nat (Py.count_char "#"%char word) - 1 in
    let title := Py.slice_from (level + 2) word in
    let anchor := Py.replace_char " "%char "_"%char (Py.rstrip title) +:+ "_" +:+ Py.str (size titles) in
    <[size titles := {| title := title; level := level; anchor := anchor |}]> titles
  else titles.

Definition extract_info (source : list string) (titles : gmap nat Heading) : gmap nat Heading :=
  foldl extract_line titles source.

Definition format_title_index (title_numb : nat) (titles : gmap nat Heading) : result string :=
  match titles !! title_numb with
  | None => Err KeyError
  | Some t =>
      let level := Py.repeat Py.tab (level t) in
      let title_format := "[" +:+ title t +:+ "]" in
      let anchor := Py.sub_term (anchor t) (anchor t) in
      Ok (level +:+ "+ " +:+ title_format +:+ anchor +:+ Py.newline)
  end.

(** [sorted(info_to_add)]: the keys in increasing order. *)
Definition sorted_keys (info_to_add : gmap nat Heading) : list nat :=
  merge_sort Nat.le (elements (dom info_to_add)).

Definition contents_header : string := " # Table of Contents" +:+ Py.newline.

Fixpoint contents_lines (keys : list nat) (info_to_add : gmap nat Heading)
    (src : list string) : result (list string) :=
  match keys with
  | [] => Ok src
  | title_numb :: rest =>
      let! line := format_title_index title_numb info_to_add in
      contents_lines rest info_to_add (src ++ [line])
  end.

Definition generate_contents (cell_id : string) (info_to_add : gmap nat Heading) : result Cell :=
  let! src := contents_lines (sorted_keys info_to_add) info_to_add [contents_header] in
  Ok {| cell_type := "markdown";
        source := src;
        cell_fields := [("id", JStr cell_id); ("metadata", JObj [])] |}.

(** The state of the loop of [generate_new_cells]. *)
Definition scan_state : Type := gmap nat Heading * list Cell.

(** One turn of the loop of [generate_new_cells]. *)
Definition process_cell (colors : option (list string)) (st : scan_state)
    (cell : Cell) : result scan_state :=
  let '(info_to_add, new_cells) := st in
  if negb (String.eqb (cell_type cell) "markdown") then
    Ok (info_to_add, new_cells ++ [cell])
  else
    let source := source cell in
    if match source with
       | [] => true
       | first :: _ => negb (Py.startswith "#" first)
       end
    then Ok (info_to_add, new_cells ++ [cell])
    else
      let info_to_add := extract_info source info_to_add in
      let number := Z.of_nat (size info_to_add) - 1 in
      if number <? 0 then Ok (info_to_add, new_cells ++ [cell])
      else
        match info_to_add !! Z.to_nat number with
        | None => Err KeyError
        | Some values =>
            let! new_source := create_source_anchor source values colors in
            Ok (info_to_add, new_cells ++ [set_source cell new_source])
        end.

Fixpoint scan_cells (colors : option (list string)) (st : scan_state)
    (cells : list Cell) : result scan_state :=
  match cells with
  | [] => Ok st
  | cell :: rest =>
      let! st' := process_cell colors st cell in
      scan_cells colors st' rest
  end.

Definition generate_new_cells (cells : list Cell) (colors : option (list string)) : result scan_state :=
  scan_cells colors (∅, []) cells.

Definition create_new_document (cell_id : string) (document : Document)
    (colors : option (list string)) : result Document :=
  let cells := cells document in
  let! (info_to_add, new_cells) := generate_new_cells cells colors in
  let! table_of_contents := generate_contents cell_id info_to_add in
  Ok (set_cells document (table_of_contents :: new_cells)).

(** The file name that [save_doc_enchulado] writes to. *)
Definition save_doc_enchulado_name (file : string) : string :=
  Py.split_head ".ipynb" file +:+ "_chulo.ipynb".

Local Close Scope Z_scope.

(** * What the pass computes

    The functions below describe the table and the cells of the pass on
    lists; the properties relate them to the program. *)

(** What follows the last occurrence of [c] in [s]. *)
Fixpoint after_last (c : ascii) (s : string) : string :=
  match s with
  | EmptyString => EmptyString
  | String a s' =>
      if (Py.count_char c s' =? 0)%nat
      then (if Ascii.eqb c a then s' else s)
      else after_last c s'
  end.

(** The heading that [extract_info] records for the line [word] when the
    table holds [n] entries. *)
Definition heading_of (n : nat) (word : string) : Heading :=
  let level := (Z.of_nat (Py.count_char "#" word) - 1)%Z in
  let title := Py.slice_from (level + 2) word in
  {| title := title;
     level := level;
     anchor := Py.replace_char " " "_" (Py.rstrip title) +:+ "_" +:+ Py.str n |}.

(** The table as the list of its headings: a table that holds the ordinals
    [0 .. n-1] is [map_seq 0 hs] for the list [hs] of its [n] headings. *)
Definition record_line (hs : list Heading) (word : string) : list Heading :=
  if Py.startswith "#" word then hs ++ [heading_of (length hs) word] else hs.

Definition record_lines (hs : list Heading) (source : list string) : list Heading :=
  foldl record_line hs source.

(** The lines of a source that [extract_info] records. *)
Definition hash_lines (source : list string) : list string :=
  List.filter (Py.startswith "#") source.

(** The markup that [maquillate] builds. *)
Definition span (color title : string) : string :=
  "<span style=" +:+ Py.quote +:+ "color: " +:+ color +:+ Py.quote
  +:+ ">" +:+ title +:+ "</span>".

(** [colors[level % len(colors)]] *)
Definition pick_color (colors : list string) (level : Z) : option string :=
  colors !! Z.to_nat (level mod Z.of_nat (length colors)).

(** The anchor tag line of a heading. *)
Definition anchor_tag (h : Heading) : string := term_i +:+ anchor h +:+ term_f.

(** The title as [create_source_anchor] writes it back. *)
Definition annotated_title (colors : option (list string)) (h : Heading) : string :=
  match truthy colors with
  | Some cs => from_option (λ color, span color (title h)) (title h) (pick_color cs (level h))
  | None => title h
  end.

Definition heading_line (colors : option (list string)) (h : Heading) : string :=
  "#" +:+ Py.repeat "#" (level h) +:+ " " +:+ annotated_title colors h.

Definition annotate_source (colors : option (list string)) (h : Heading)
    (source : list string) : list string :=
  anchor_tag h :: heading_line colors h :: tail source.

(** The cells that [generate_new_cells] rewrites: markdown cells whose first
    source line starts with [#]. *)
Definition is_heading_cell (cell : Cell) : bool :=
  String.eqb (cell_type cell) "markdown" &&
  match source cell with
  | [] => false
  | first :: _ => Py.startswith "#" first
  end.

Definition step_headings (hs : list Heading) (cell : Cell) : list Heading :=
  if is_heading_cell cell then record_lines hs (source cell) else hs.

Definition step_cell (colors : option (list string)) (hs : list Heading) (cell : Cell) : Cell :=
  if is_heading_cell cell
  then match last (record_lines hs (source cell)) with
       | Some h => set_source cell (annotate_source colors h (source cell))
       | None => cell
       end
  else cell.

Fixpoint all_headings (hs : list Heading) (cells : list Cell) : list Heading :=
  match cells with
  | [] => hs
  | cell :: rest => all_headings (step_headings hs cell) rest
  end.

Fixpoint annotate_cells (colors : option (list string)) (hs : list Heading)
    (cells : list Cell) : list Cell :=
  match cells with
  | [] => []
  | cell :: rest => step_cell colors hs cell :: annotate_cells colors (step_headings hs cell) rest
  end.

(** The recorded lines of a document, in the order the pass meets them. *)
Definition heading_lines (cells : list Cell) : list string :=
  flat_map (λ cell, if is_heading_cell cell then hash_lines (source cell) else []) cells.

(** A line of the contents cell. *)
Definition toc_line (h : Heading) : string :=
  Py.repeat Py.tab (level h) +:+ "+ " +:+ ("[" +:+ title h +:+ "]")
  +:+ ("(#" +:+ anchor h +:+ ")") +:+ Py.newline.

Definition contents_cell (cell_id : string) (hs : list Heading) : Cell :=
  {| cell_type := "markdown";
     source := contents_header :: (toc_line <$> hs);
     cell_fields := [("id", JStr cell_id); ("metadata", JObj [])] |}.

(** The number of [#] characters a line starts with. *)
Fixpoint leading_hashes (s : string) : nat :=
  match s with
  | String c s' => if Ascii.eqb c "#" then S (leading_hashes s') else O
  | EmptyString => O
  end.

(** The heading and the file name as the specification words them. *)
Module Spec.

(** "count of leading [#] characters minus one" *)
Definition heading_level (word : string) : Z :=
  (Z.of_nat (leading_hashes word) - 1)%Z.

(** "text after the leading [#] run and one space" *)
Definition heading_title (word : string) : string :=
  match Py.drop_chars (leading_hashes word) word with
  | String " " rest => rest
  | rest => rest
  end.

Fixpoint lstrip (s : string) : string :=
  match s with
  | String c s' => if Py.isspace c then lstrip s' else s
  | EmptyString => EmptyString
  end.

(** Every run of whitespace inside the text becomes one underscore; a run
    at the end is dropped. *)
Fixpoint collapse (pending : bool) (s : string) : string :=
  match s with
  | EmptyString => EmptyString
  | String c s' =>
      if Py.isspace c then collapse true s'
      else if pending then String "_" (String c (collapse false s'))
      else String c (collapse false s')
  end.

(** "title with whitespace collapsed to underscores, trimmed, suffixed with
    [_<ordinal>]" *)
Definition heading_anchor (title : string) (ordinal : nat) : string :=
  collapse false (lstrip title) +:+ "_" +:+ Py.str ordinal.

(** A heading that has the three fields of the specification. *)
Definition heading_as_specified (ordinal : nat) (word : string) (h : Heading) : Prop :=
  level h = heading_level word ∧
  title h = heading_title word ∧
  anchor h = heading_anchor (title h) ordinal.

Fixpoint strip_suffix (suffix s : string) : string :=
  match s with
  | EmptyString => EmptyString
  | String c s' =>
      if String.eqb s suffix then EmptyString else String c (strip_suffix suffix s')
  end.

(** "original name, [.ipynb] suffix stripped, [_chulo] appended, [.ipynb]
    reappended" *)
Definition save_name (file : string) : string :=
  strip_suffix ".ipynb" file +:+ "_chulo" +:+ ".ipynb".

End Spec.

(** ** The identifier of the contents cell *)

(** The digit of [d] in lower-case hexadecimal. *)
Definition hex_digit (d : N) : ascii :=
  default "0"%char (String.get (N.to_nat d) "0123456789abcdef").

(** The last [width] hexadecimal digits of [n], with zeros in front: for [n]
    below [16 ^ width] this is ['%0<width>x' % n]. *)
Fixpoint hex_pad (width : nat) (n : N) : string :=
  match width with
  | O => EmptyString
  | S w => hex_pad w (n / 16) +:+ String (hex_digit (n mod 16)) EmptyString
  end.

(** [uuid.uuid4().hex[:8]], for the integer [u] of the drawn UUID, a number
    below [2 ^ 128]: [hex] is ['%032x' % u]. *)
Definition generate_corpus_id (u : N) : string :=
  Py.take_chars 8 (hex_pad 32 u).

(** The lower-case hexadecimal digits. *)
Definition is_lower_hex (c : ascii) : bool :=
  let n := nat_of_ascii c in
  ((48 <=? n) && (n <=? 57) || (97 <=? n) && (n <=? 102))%nat.

Fixpoint all_chars (p : ascii → bool) (s : string) : bool :=
  match s with
  | EmptyString => true
  | String c s' => p c && all_chars p s'
  end.

(** [sep in s] *)
Fixpoint contains (sep s : string) : bool :=
  String.prefix sep s ||
  match s with
  | EmptyString => false
  | String _ s' => contains sep s'
  end.

(** ** Example documents *)

Definition md (src : list string) : Cell :=
  {| cell_type := "markdown"; source := src; cell_fields := [] |}.
Definition code (src : list string) : Cell :=
  {| cell_type := "code"; source := src; cell_fields := [] |}.

Definition example_doc : Document :=
  {| cells := [md ["# Intro" +:+ Py.newline]; code ["print(1)"]; md ["## Details" +:+ Py.newline]];
     doc_fields := [] |}.

(** The two contents lines as the specification writes them. *)
Definition claimed_example_body : list string :=
  [ "+ [Intro](#Intro_0)" +:+ Py.newline;
    Py.tab +:+ "+ [Details](#Details_1)" +:+ Py.newline ].

(** A cell whose heading has two spaces in a row. *)
Definition spaced_cells : list Cell := [md ["# A  B" +:+ Py.newline]].

(** A cell with two heading lines. *)
Definition two_heading_cell : Cell :=
  md ["# A" +:+ Py.newline; "text" +:+ Py.newline; "## B" +:+ Py.newline].

(** Three heading cells of the levels 0, 1 and 2, all titled Intro. *)
Definition colored_doc : Document :=
  {| cells := [md ["# Intro"]; md ["## Intro"]; md ["### Intro"]];
     doc_fields := [] |}.

(** * Properties *)

(** ** Strings *)

Lemma sapp_cons (c : ascii) (s t : string) : String c s +:+ t = String c (s +:+ t).
Proof. reflexivity. Qed.

Lemma sapp_nil_l (t : string) : EmptyString +:+ t = t.
Proof. reflexivity. Qed.

Lemma prefix_refl (s : string) : String.prefix s s = true.
Proof.
  induction s as [|c s IH]; simpl; [done|].
  destruct (ascii_dec c c); [done|congruence].
Qed.

Lemma drop_chars_all (s : string) : Py.drop_chars (String.length s) s = EmptyString.
Proof. induction s as [|c s IH]; simpl; done. Qed.

Lemma take_chars_all (s : string) : Py.take_chars (String.length s) s = s.
Proof. induction s as [|c s IH]; simpl; [done|by rewrite IH]. Qed.

(** Once the scan has a whole match still to pass over, it emits nothing. *)
Lemma sub_scan_skip (lit s : string) (k : nat) :
  (String.length s ≤ k)%nat → Py.sub_scan lit false k s = EmptyString.
Proof.
  revert k. induction s as [|c s IH]; intros k Hk.
  - destruct k; reflexivity.
  - destruct k; simpl in Hk; [lia|]. simpl. apply IH. lia.
Qed.

(** The pattern built from a string, applied to that very string, matches
    all of it at [^] and [$]. *)
Lemma sub_term_self (a : string) : Py.sub_term a a = "(#" +:+ a +:+ ")".
Proof.
  unfold Py.sub_term.
  assert (Hm : Py.match_here a true a = Some (String.length a)).
  { unfold Py.match_here. rewrite prefix_refl, drop_chars_all. simpl.
    by rewrite Nat.add_0_r. }
  destruct a as [|c a]; [reflexivity|].
  cbn [Py.sub_scan]. rewrite Hm. cbn [String.length].
  rewrite sub_scan_skip by lia.
  change (S (String.length a)) with (String.length (String c a)).
  by rewrite take_chars_all.
Qed.

Lemma count_char_app (c : ascii) (s t : string) :
  Py.count_char c (s +:+ t) = (Py.count_char c s + Py.count_char c t)%nat.
Proof.
  induction s as [|d s IH]; [done|].
  rewrite sapp_cons. simpl. rewrite IH. lia.
Qed.

(** The decimal form of a number has no underscore. *)
Lemma str_no_underscore (n : nat) : Py.count_char "_" (Py.str n) = O.
Proof.
  unfold Py.str.
  induction (Nat.to_uint n) as [|d IH|d IH|d IH|d IH|d IH|d IH|d IH|d IH|d IH|d IH];
    simpl; done.
Qed.

Lemma str_inj (n m : nat) : Py.str n = Py.str m → n = m.
Proof.
  unfold Py.str. intros H.
  apply (f_equal NilEmpty.uint_of_string) in H.
  rewrite !NilEmpty.usu in H. injection H as H.
  apply (f_equal Nat.of_uint) in H.
  by rewrite !DecimalNat.Unsigned.of_to in H.
Qed.

Lemma after_last_app (c : ascii) (s d : string) :
  Py.count_char c d = O → after_last c (s +:+ String c d) = d.
Proof.
  intros Hd. induction s as [|a s IH].
  - rewrite sapp_nil_l. simpl. rewrite Hd. simpl. by rewrite Ascii.eqb_refl.
  - rewrite sapp_cons. simpl. rewrite count_char_app. simpl. rewrite Ascii.eqb_refl.
    destruct (Nat.eqb_spec (Py.count_char c s + (1 + Py.count_char c d)) 0); [lia|done].
Qed.

(** Two identifiers [slug_ordinal] with the same text have the same ordinal. *)
Lemma anchor_ordinal_inj (s1 s2 : string) (n1 n2 : nat) :
  s1 +:+ "_" +:+ Py.str n1 = s2 +:+ "_" +:+ Py.str n2 → n1 = n2.
Proof.
  intros H. apply (f_equal (after_last "_")) in H.
  change ("_" +:+ Py.str n1) with (String "_" (Py.str n1)) in H.
  change ("_" +:+ Py.str n2) with (String "_" (Py.str n2)) in H.
  rewrite !after_last_app in H by apply str_no_underscore.
  by apply str_inj.
Qed.

(** ** The heading table *)

Lemma extract_line_unfold (titles : gmap nat Heading) (word : string) :
  extract_line titles word =
  if Py.startswith "#" word
  then <[size titles := heading_of (size titles) word]> titles
  else titles.
Proof. reflexivity. Qed.

Lemma size_map_seq (start : nat) (hs : list Heading) :
  size (map_seq start hs : gmap nat Heading) = length hs.
Proof.
  revert start. induction hs as [|h hs IH]; intros start.
  - apply map_size_empty.
  - rewrite map_seq_cons, map_size_insert_None by apply map_seq_cons_disjoint.
    by rewrite IH.
Qed.

Lemma extract_line_seq (hs : list Heading) (word : string) :
  extract_line (map_seq 0 hs) word = map_seq 0 (record_line hs word).
Proof.
  rewrite extract_line_unfold. unfold record_line.
  destruct (Py.startswith "#" word); [|done].
  by rewrite size_map_seq, map_seq_snoc.
Qed.

Lemma extract_info_seq (source : list string) (hs : list Heading) :
  extract_info source (map_seq 0 hs) = map_seq 0 (record_lines hs source).
Proof.
  unfold extract_info, record_lines. revert hs.
  induction source as [|word source IH]; intros hs; [done|].
  simpl. by rewrite extract_line_seq, IH.
Qed.

(** The recorded lines get the next ordinals, in the order of the lines. *)
Lemma record_lines_spec (hs : list Heading) (source : list string) :
  record_lines hs source =
  hs ++ imap (λ j word, heading_of (length hs + j) word) (hash_lines source).
Proof.
  unfold record_lines, hash_lines. revert hs.
  induction source as [|word source IH]; intros hs; simpl.
  - by rewrite app_nil_r.
  - rewrite IH. unfold record_line.
    destruct (Py.startswith "#" word); [|done].
    rewrite imap_cons, <-app_assoc, Nat.add_0_r. simpl. do 2 f_equal.
    apply imap_ext. intros j w _. simpl. rewrite length_app. simpl.
    f_equal. lia.
Qed.

Lemma length_record_lines (hs : list Heading) (source : list string) :
  length (record_lines hs source) = length hs + length (hash_lines source).
Proof. by rewrite record_lines_spec, length_app, length_imap. Qed.

Lemma Sorted_le_seq (a n : nat) : Sorted Nat.le (seq a n).
Proof.
  revert a. induction n as [|n IH]; intros a; simpl; constructor; [apply IH|].
  destruct n; simpl; constructor. unfold Nat.le. lia.
Qed.

Lemma sorted_keys_seq (hs : list Heading) :
  sorted_keys (map_seq 0 hs) = seq 0 (length hs).
Proof.
  unfold sorted_keys.
  apply (Sorted_unique Nat.le).
  - apply Sorted_merge_sort, _.
  - apply Sorted_le_seq.
  - rewrite merge_sort_Permutation.
    apply NoDup_Permutation; [apply NoDup_elements|apply NoDup_seq|].
    intros k. rewrite elem_of_elements, elem_of_dom, elem_of_seq.
    rewrite lookup_map_seq_0, lookup_lt_is_Some. lia.
Qed.

(** ** One cell *)

Section one_cell.

Variable colors : option (list string).

Lemma pick_color_is_Some (cs : list string) (level : Z) :
  cs ≠ [] → is_Some (pick_color cs level).
Proof.
  intros Hne. unfold pick_color. apply lookup_lt_is_Some.
  destruct cs as [|c cs]; [done|].
  pose proof (Z.mod_pos_bound level (Z.of_nat (length (c :: cs)))) as Hb.
  simpl length in *. lia.
Qed.

Lemma maquillate_span (title : string) (level : Z) (cs : list string) (color : string) :
  pick_color cs level = Some color →
  maquillate title level cs = Ok (span color title).
Proof.
  unfold maquillate, pick_color. intros Hc.
  destruct (decide (length cs = 0)) as [Hz|_].
  - apply nil_length_inv in Hz. by subst.
  - by rewrite Hc.
Qed.

Lemma maquillate_empty (title : string) (level : Z) :
  maquillate title level [] = Err ZeroDivisionError.
Proof. reflexivity. Qed.

Lemma create_source_anchor_ok (source : list string) (h : Heading) :
  source ≠ [] →
  create_source_anchor source h colors = Ok (annotate_source colors h source).
Proof.
  intros Hne. destruct source as [|first rest]; [done|].
  unfold create_source_anchor, annotate_source, heading_line, annotated_title.
  destruct (truthy colors) as [cs|] eqn:Hcs; [|reflexivity].
  assert (Hcne : cs ≠ []).
  { destruct colors as [[|c cs']|]; simpl in Hcs; by simplify_eq. }
  destruct (pick_color_is_Some cs (level h) Hcne) as [color Hcolor].
  rewrite (maquillate_span _ _ _ _ Hcolor), Hcolor. reflexivity.
Qed.

(** A cell that is not a heading cell is appended as it is, whatever the
    table holds, and the table stays as it is. *)
Lemma process_cell_pass (info : gmap nat Heading) (new_cells : list Cell) (cell : Cell) :
  is_heading_cell cell = false →
  process_cell colors (info, new_cells) cell = Ok (info, new_cells ++ [cell]).
Proof.
  unfold is_heading_cell, process_cell. intros H.
  destruct (String.eqb (cell_type cell) "markdown"); simpl in *; [|done].
  destruct (source cell) as [|first rest]; [done|]. by rewrite H.
Qed.

Lemma record_lines_heading_cell (hs : list Heading) (cell : Cell) :
  is_heading_cell cell = true →
  source cell ≠ [] ∧ is_Some (last (record_lines hs (source cell))).
Proof.
  unfold is_heading_cell. intros [_ H]%andb_true_iff.
  destruct (source cell) as [|first rest] eqn:Hs; [done|]. split; [done|].
  rewrite last_is_Some. intros Hnil. apply (f_equal length) in Hnil.
  rewrite length_record_lines in Hnil. unfold hash_lines in Hnil. simpl in Hnil.
  rewrite H in Hnil. simpl in Hnil. lia.
Qed.

Lemma process_cell_seq (hs : list Heading) (new_cells : list Cell) (cell : Cell) :
  process_cell colors (map_seq 0 hs, new_cells) cell =
  Ok (map_seq 0 (step_headings hs cell), new_cells ++ [step_cell colors hs cell]).
Proof.
  unfold step_headings, step_cell.
  destruct (is_heading_cell cell) eqn:Hc; [|by apply process_cell_pass].
  destruct (record_lines_heading_cell hs cell Hc) as [Hne [h Hlast]].
  rewrite Hlast. unfold is_heading_cell in Hc. apply andb_true_iff in Hc as [Ht Hf].
  unfold process_cell. rewrite Ht. simpl negb. cbv iota.
  destruct (source cell) as [|first rest] eqn:Hs; [done|]. rewrite Hf. simpl negb. cbv iota.
  rewrite extract_info_seq, size_map_seq.
  pose proof (proj1 (last_Some _ _) Hlast) as [l' Hl']. rewrite Hl', length_app. simpl length.
  destruct (Z.ltb_spec (Z.of_nat (length l' + 1) - 1) 0) as [?|_]; [lia|].
  rewrite lookup_map_seq_0.
  replace (Z.to_nat (Z.of_nat (length l' + 1) - 1)) with (length l' + 0) by lia.
  rewrite lookup_app_r, Nat.add_comm, Nat.add_sub by lia. simpl.
  by rewrite create_source_anchor_ok.
Qed.

End one_cell.

(** ** The whole pass *)

Section pass.

Variable colors : option (list string).

Lemma scan_cells_seq (hs : list Heading) (new_cells cells : list Cell) :
  scan_cells colors (map_seq 0 hs, new_cells) cells =
  Ok (map_seq 0 (all_headings hs cells), new_cells ++ annotate_cells colors hs cells).
Proof.
  revert hs new_cells.
  induction cells as [|cell rest IH]; intros hs new_cells;
    cbn [scan_cells annotate_cells all_headings].
  - by rewrite app_nil_r.
  - rewrite process_cell_seq. cbn [rbind]. rewrite IH. by rewrite <-app_assoc.
Qed.

Lemma generate_new_cells_seq (cells : list Cell) :
  generate_new_cells cells colors =
  Ok (map_seq 0 (all_headings [] cells), annotate_cells colors [] cells).
Proof. unfold generate_new_cells. apply (scan_cells_seq [] [] cells). Qed.

Lemma all_headings_spec (hs : list Heading) (cells : list Cell) :
  all_headings hs cells =
  hs ++ imap (λ j word, heading_of (length hs + j) word) (heading_lines cells).
Proof.
  unfold heading_lines. revert hs.
  induction cells as [|cell rest IH]; intros hs; simpl.
  - by rewrite app_nil_r.
  - rewrite IH. unfold step_headings.
    destruct (is_heading_cell cell); [|done].
    rewrite record_lines_spec, imap_app, <-app_assoc. do 2 f_equal.
    apply imap_ext. intros j w _. simpl. rewrite length_app, length_imap.
    f_equal. lia.
Qed.

(** Cell [i] of the output is cell [i] of the input after its own step. *)
Lemma lookup_annotate_cells (hs : list Heading) (cells : list Cell) (i : nat) (cell : Cell) :
  cells !! i = Some cell →
  annotate_cells colors hs cells !! i =
  Some (step_cell colors (all_headings hs (take i cells)) cell).
Proof.
  revert hs i. induction cells as [|c rest IH]; intros hs [|i] Hi; simplify_eq/=.
  - done.
  - by apply IH.
Qed.

Lemma format_title_index_seq (hs : list Heading) (k : nat) (h : Heading) :
  hs !! k = Some h → format_title_index k (map_seq 0 hs) = Ok (toc_line h).
Proof.
  intros Hk. unfold format_title_index. rewrite lookup_map_seq_0, Hk.
  by rewrite sub_term_self.
Qed.

Lemma contents_lines_seq (hs : list Heading) (keys : list nat)
    (entries : list Heading) (src : list string) :
  Forall2 (λ k h, hs !! k = Some h) keys entries →
  contents_lines keys (map_seq 0 hs) src = Ok (src ++ (toc_line <$> entries)).
Proof.
  intros HF. revert src.
  induction HF as [|k h keys entries Hk _ IH]; intros src; cbn [contents_lines fmap list_fmap].
  - by rewrite app_nil_r.
  - rewrite (format_title_index_seq _ _ _ Hk). cbn [rbind]. rewrite IH.
    by rewrite <-app_assoc.
Qed.

Lemma generate_contents_seq (cell_id : string) (hs : list Heading) :
  generate_contents cell_id (map_seq 0 hs) = Ok (contents_cell cell_id hs).
Proof.
  unfold generate_contents. rewrite sorted_keys_seq.
  rewrite (contents_lines_seq hs _ hs); [done|].
  apply Forall2_same_length_lookup. split; [by rewrite length_seq|].
  intros i k h [-> _]%lookup_seq Hh. done.
Qed.

(** The transformation never raises, and its result is the contents cell
    of all the recorded headings before the rewritten cells. *)
Lemma create_new_document_seq (cell_id : string) (document : Document) :
  create_new_document cell_id document colors =
  Ok (set_cells document
        (contents_cell cell_id (all_headings [] (cells document))
         :: annotate_cells colors [] (cells document))).
Proof.
  unfold create_new_document. rewrite generate_new_cells_seq. cbn [rbind].
  by rewrite generate_contents_seq.
Qed.

End pass.

(** A document without heading cells goes through the pass as it is. *)
Lemma pass_without_heading_cells (colors : option (list string)) (hs : list Heading)
    (cells : list Cell) :
  Forall (λ cell, is_heading_cell cell = false) cells →
  all_headings hs cells = hs ∧ annotate_cells colors hs cells = cells.
Proof.
  induction 1 as [|cell rest Hc _ [IH1 IH2]]; [done|].
  cbn [all_headings annotate_cells]. unfold step_headings, step_cell.
  rewrite Hc, IH1, IH2. done.
Qed.

Lemma not_markdown_not_heading (cell : Cell) :
  cell_type cell ≠ "markdown" → is_heading_cell cell = false.
Proof.
  intros Hne. unfold is_heading_cell.
  destruct (String.eqb_spec (cell_type cell) "markdown"); done.
Qed.

Lemma length_annotate_cells (colors : option (list string)) (hs : list Heading)
    (cells : list Cell) :
  length (annotate_cells colors hs cells) = length cells.
Proof.
  revert hs. induction cells as [|cell rest IH]; intros hs; [done|].
  cbn [annotate_cells length]. by rewrite IH.
Qed.

Lemma all_headings_app (hs : list Heading) (cells1 cells2 : list Cell) :
  all_headings hs (cells1 ++ cells2) = all_headings (all_headings hs cells1) cells2.
Proof.
  revert hs. induction cells1 as [|cell rest IH]; intros hs; [done|].
  cbn [app all_headings]. apply IH.
Qed.

Lemma annotate_cells_app (colors : option (list string)) (hs : list Heading)
    (cells1 cells2 : list Cell) :
  annotate_cells colors hs (cells1 ++ cells2) =
  annotate_cells colors hs cells1 ++ annotate_cells colors (all_headings hs cells1) cells2.
Proof.
  revert hs. induction cells1 as [|cell rest IH]; intros hs; [done|].
  cbn [app all_headings annotate_cells]. by rewrite IH.
Qed.

Lemma heading_lines_startswith (cells : list Cell) (word : string) :
  word ∈ heading_lines cells → Py.startswith "#" word = true.
Proof.
  unfold heading_lines. intros Hin.
  apply list_elem_of_In, in_flat_map in Hin as (cell & _ & Hin).
  destruct (is_heading_cell cell); [|done].
  unfold hash_lines in Hin. by apply filter_In in Hin as [_ Hin].
Qed.

(** * The claims *)

(** ** C1: the end-to-end example *)

(** C1, as stated, fails: on the example document the source of the contents
    cell after its header line is not the two lines
    ["+ [Intro](#Intro_0)\n"] and ["\t+ [Details](#Details_1)\n"]. *)
Lemma example_contents_body_differs :
  ¬ ∃ d toc,
      create_new_document "1a2b3c4d" example_doc None = Ok d ∧
      cells d !! 0 = Some toc ∧
      tail (source toc) = claimed_example_body.
Proof.
  intros (d & toc & Hd & Htoc & Hbody).
  vm_compute in Hd. injection Hd as <-.
  vm_compute in Htoc. injection Htoc as <-.
  vm_compute in Hbody. discriminate Hbody.
Qed.

(** C1 (amended): on the example document the transformation returns the
    contents cell, whose two lines after the header are
    ["+ [Intro\n](#Intro_0)\n"] and ["\t+ [Details\n](#Details_1)\n"] (a
    title keeps the newline of its heading line), then the Intro cell with the
    anchor tag line of [Intro_0] before its heading line, the code cell as it
    was, and the Details cell with the anchor tag line of [Details_1] before
    its heading line. *)
Theorem example_transformation (cell_id : string) :
  create_new_document cell_id example_doc None =
  Ok {| cells :=
          [ {| cell_type := "markdown";
               source :=
                 [ " # Table of Contents" +:+ Py.newline;
                   "+ [Intro" +:+ Py.newline +:+ "](#Intro_0)" +:+ Py.newline;
                   Py.tab +:+ "+ [Details" +:+ Py.newline +:+ "](#Details_1)" +:+ Py.newline ];
               cell_fields := [("id", JStr cell_id); ("metadata", JObj [])] |};
            md [ "<a class=" +:+ Py.quote +:+ "anchor" +:+ Py.quote +:+ " id="
                 +:+ Py.quote +:+ "Intro_0" +:+ Py.quote +:+ "></a>" +:+ Py.newline;
                 "# Intro" +:+ Py.newline ];
            code [ "print(1)" ];
            md [ "<a class=" +:+ Py.quote +:+ "anchor" +:+ Py.quote +:+ " id="
                 +:+ Py.quote +:+ "Details_1" +:+ Py.quote +:+ "></a>" +:+ Py.newline;
                 "## Details" +:+ Py.newline ] ];
        doc_fields := [] |}.
Proof. vm_compute. reflexivity. Qed.

(** ** C5: cells that are passed through *)

(** C5: a cell that is not markdown, or a markdown cell whose source is empty
    or whose first line does not start with [#], is appended to the output as
    it is by its turn of the loop, whatever the table holds, and the table is
    handed on as it was; in the transformed document the cell stands, equal
    to the input cell, one place later (after the contents cell). *)
Theorem passthrough_cell_unchanged (cell : Cell) :
  cell_type cell ≠ "markdown" ∨ source cell = [] ∨
    (∃ first rest, source cell = first :: rest ∧ Py.startswith "#" first = false) →
  (∀ colors info new_cells,
     process_cell colors (info, new_cells) cell = Ok (info, new_cells ++ [cell])) ∧
  (∀ cell_id document colors i,
     cells document !! i = Some cell →
     ∃ d, create_new_document cell_id document colors = Ok d ∧
          cells d !! S i = Some cell).
Proof.
  intros Hcell.
  assert (Hpass : is_heading_cell cell = false).
  { destruct Hcell as [Ht|[Hs|(first & rest & Hs & Hf)]].
    - by apply not_markdown_not_heading.
    - unfold is_heading_cell. rewrite Hs. apply andb_false_r.
    - unfold is_heading_cell. rewrite Hs, Hf. apply andb_false_r. }
  split.
  - intros colors info new_cells. by apply process_cell_pass.
  - intros cell_id document colors i Hi.
    eexists. split; [apply create_new_document_seq|].
    cbn [cells set_cells lookup list_lookup].
    rewrite (lookup_annotate_cells _ _ _ _ _ Hi). unfold step_cell. by rewrite Hpass.
Qed.

Lemma passthrough_cell_unchanged_witness :
  (∀ colors info new_cells,
     process_cell colors (info, new_cells) (code ["print(1)"]) =
     Ok (info, new_cells ++ [code ["print(1)"]])) ∧
  (∀ cell_id document colors i,
     cells document !! i = Some (code ["print(1)"]) →
     ∃ d, create_new_document cell_id document colors = Ok d ∧
          cells d !! S i = Some (code ["print(1)"])).
Proof.
  apply (passthrough_cell_unchanged (code ["print(1)"])).
  left. simpl. discriminate.
Defined.

(** ** C6: documents without markdown cells *)

(** C6: when no cell of the document is markdown, the transformation returns
    the document with one cell put before its cells: the contents cell whose
    source is the header line alone. *)
Theorem no_markdown_document (cell_id : string) (document : Document)
    (colors : option (list string)) :
  Forall (λ cell, cell_type cell ≠ "markdown") (cells document) →
  create_new_document cell_id document colors =
  Ok (set_cells document
        ({| cell_type := "markdown";
            source := [" # Table of Contents" +:+ Py.newline];
            cell_fields := [("id", JStr cell_id); ("metadata", JObj [])] |}
         :: cells document)).
Proof.
  intros Hall. rewrite create_new_document_seq.
  destruct (pass_without_heading_cells colors [] (cells document)) as [-> ->]; [|done].
  eapply Forall_impl; [exact Hall|]. intros cell. apply not_markdown_not_heading.
Qed.

Lemma no_markdown_document_witness :
  create_new_document "1a2b3c4d"
    {| cells := [code ["print(1)"]; code ["x = 2"]]; doc_fields := [] |} None =
  Ok {| cells :=
          [ {| cell_type := "markdown";
               source := [" # Table of Contents" +:+ Py.newline];
               cell_fields := [("id", JStr "1a2b3c4d"); ("metadata", JObj [])] |};
            code ["print(1)"]; code ["x = 2"] ];
        doc_fields := [] |}.
Proof.
  apply (no_markdown_document "1a2b3c4d"
           {| cells := [code ["print(1)"]; code ["x = 2"]]; doc_fields := [] |} None).
  repeat constructor; simpl; discriminate.
Defined.

(** ** C7: colors by level *)

(** C7: when the transformation is given a color list that is not empty,
    every heading cell comes out with its heading line holding the title of
    its recorded heading wrapped in a span of the color
    [colors[level mod len(colors)]], which is what [maquillate] returns; with
    the colors red and blue, the heading Intro at level 0 comes out as
    [<span style="color: red">Intro</span>], at level 1 it takes blue and
    at level 2 red again. *)
Theorem coloring_by_level :
  (∀ (cell_id : string) (document : Document) (c : string) (cs : list string)
     (i : nat) (cell : Cell) (first : string) (rest : list string),
     cells document !! i = Some cell →
     cell_type cell = "markdown" →
     source cell = first :: rest →
     Py.startswith "#" first = true →
     ∃ (info : gmap nat Heading) (new_cells : list Cell) (d : Document)
       (k : nat) (h : Heading) (color : string),
       generate_new_cells (cells document) (Some (c :: cs)) = Ok (info, new_cells) ∧
       create_new_document cell_id document (Some (c :: cs)) = Ok d ∧
       info !! k = Some h ∧
       (c :: cs) !! Z.to_nat (level h mod Z.of_nat (length (c :: cs))) = Some color ∧
       cells d !! S i =
         Some {| cell_type := cell_type cell;
                 source :=
                   (term_i +:+ anchor h +:+ term_f)
                   :: ("#" +:+ Py.repeat "#" (level h) +:+ " " +:+
                       ("<span style=" +:+ Py.quote +:+ "color: " +:+ color +:+ Py.quote
                        +:+ ">" +:+ title h +:+ "</span>"))
                   :: rest;
                 cell_fields := cell_fields cell |}) ∧
  (∀ (c : string) (cs : list string) (t : string) (lvl : Z),
     ∃ color,
       (c :: cs) !! Z.to_nat (lvl mod Z.of_nat (length (c :: cs))) = Some color ∧
       maquillate t lvl (c :: cs) =
       Ok ("<span style=" +:+ Py.quote +:+ "color: " +:+ color +:+ Py.quote
           +:+ ">" +:+ t +:+ "</span>")) ∧
  (∀ cell_id : string,
     create_new_document cell_id colored_doc (Some ["red"; "blue"]) =
     Ok {| cells :=
             [ {| cell_type := "markdown";
                  source :=
                    [ " # Table of Contents" +:+ Py.newline;
                      "+ [Intro](#Intro_0)" +:+ Py.newline;
                      Py.tab +:+ "+ [Intro](#Intro_1)" +:+ Py.newline;
                      Py.tab +:+ Py.tab +:+ "+ [Intro](#Intro_2)" +:+ Py.newline ];
                  cell_fields := [("id", JStr cell_id); ("metadata", JObj [])] |};
               md [ "<a class=" +:+ Py.quote +:+ "anchor" +:+ Py.quote +:+ " id="
                    +:+ Py.quote +:+ "Intro_0" +:+ Py.quote +:+ "></a>" +:+ Py.newline;
                    "# <span style=" +:+ Py.quote +:+ "color: red" +:+ Py.quote
                    +:+ ">Intro</span>" ];
               md [ "<a class=" +:+ Py.quote +:+ "anchor" +:+ Py.quote +:+ " id="
                    +:+ Py.quote +:+ "Intro_1" +:+ Py.quote +:+ "></a>" +:+ Py.newline;
                    "## <span style=" +:+ Py.quote +:+ "color: blue" +:+ Py.quote
                    +:+ ">Intro</span>" ];
               md [ "<a class=" +:+ Py.quote +:+ "anchor" +:+ Py.quote +:+ " id="
                    +:+ Py.quote +:+ "Intro_2" +:+ Py.quote +:+ "></a>" +:+ Py.newline;
                    "### <span style=" +:+ Py.quote +:+ "color: red" +:+ Py.quote
                    +:+ ">Intro</span>" ] ];
           doc_fields := [] |}) ∧
  maquillate "Intro" 0 ["red"; "blue"] =
    Ok ("<span style=" +:+ Py.quote +:+ "color: red" +:+ Py.quote +:+ ">Intro</span>") ∧
  maquillate "Intro" 1 ["red"; "blue"] =
    Ok ("<span style=" +:+ Py.quote +:+ "color: blue" +:+ Py.quote +:+ ">Intro</span>") ∧
  maquillate "Intro" 2 ["red"; "blue"] =
    Ok ("<span style=" +:+ Py.quote +:+ "color: red" +:+ Py.quote +:+ ">Intro</span>").
Proof.
  split; [|split; [|split; [|by vm_compute]]].
  - intros cell_id document c cs i cell first rest Hi Htype Hsource Hfirst.
    assert (Hc : is_heading_cell cell = true).
    { unfold is_heading_cell. rewrite Htype, Hsource, Hfirst. reflexivity. }
    set (hs := all_headings [] (take i (cells document))).
    destruct (record_lines_heading_cell hs cell Hc) as [_ [h Hlast]].
    destruct (pick_color_is_Some (c :: cs) (level h)) as [color Hcolor]; [done|].
    eexists _, _, _, (pred (length (record_lines hs (source cell)))), h, color.
    split; [apply generate_new_cells_seq|].
    split; [apply create_new_document_seq|].
    split; [|split; [exact Hcolor|]].
    + rewrite lookup_map_seq_0.
      rewrite <-(take_drop_middle (cells document) i cell Hi).
      rewrite all_headings_app. cbn [all_headings]. fold hs.
      unfold step_headings at 1. rewrite Hc, all_headings_spec.
      apply lookup_app_l_Some. by rewrite <-last_lookup.
    + cbn [cells set_cells lookup list_lookup].
      rewrite (lookup_annotate_cells _ _ _ _ _ Hi). fold hs.
      unfold step_cell. rewrite Hc, Hlast.
      unfold set_source, annotate_source, heading_line, annotated_title, anchor_tag.
      cbn [truthy]. unfold pick_color in Hcolor |- *. rewrite Hcolor, Hsource.
      reflexivity.
  - intros c cs t lvl.
    destruct (pick_color_is_Some (c :: cs) lvl) as [color Hcolor]; [done|].
    exists color. split; [exact Hcolor|]. by apply maquillate_span.
  - intros cell_id. vm_compute. reflexivity.
Qed.

Lemma coloring_by_level_witness :
  ∃ (h : Heading) (color : string),
    ["red"; "blue"] !! Z.to_nat (level h mod 2) = Some color ∧
    ∃ d, create_new_document "1a2b3c4d" colored_doc (Some ["red"; "blue"]) = Ok d ∧
         cells d !! 2 =
           Some {| cell_type := "markdown";
                   source :=
                     [ term_i +:+ anchor h +:+ term_f;
                       "#" +:+ Py.repeat "#" (level h) +:+ " " +:+
                       ("<span style=" +:+ Py.quote +:+ "color: " +:+ color +:+ Py.quote
                        +:+ ">" +:+ title h +:+ "</span>") ];
                   cell_fields := [] |}.
Proof.
  destruct (proj1 coloring_by_level "1a2b3c4d" colored_doc "red" ["blue"] 1
              (md ["## Intro"]) "## Intro" [])
    as (info & new_cells & d & k & h & color & _ & Hd & _ & Hcolor & Hcell);
    [reflexivity..|].
  exists h, color. split; [exact Hcolor|]. exists d. split; [exact Hd|exact Hcell].
Defined.

(** ** C10: an empty color list *)

(** C10: with the empty color list the transformation returns, without an
    error, what it returns without colors, and a heading line is written
    back with its bare title; [maquillate], whose modulo by the length of the
    list would raise on an empty list, is not called. *)
Theorem empty_colors_as_none :
  (∀ (cell_id : string) (document : Document),
     create_new_document cell_id document (Some []) =
     create_new_document cell_id document None ∧
     ∃ d, create_new_document cell_id document (Some []) = Ok d) ∧
  (∀ (source : list string) (h : Heading),
     create_source_anchor source h (Some []) = create_source_anchor source h None) ∧
  (∀ (first : string) (rest : list string) (h : Heading),
     create_source_anchor (first :: rest) h (Some []) =
     Ok (anchor_tag h :: ("#" +:+ Py.repeat "#" (level h) +:+ " " +:+ title h) :: rest)) ∧
  (∀ (t : string) (lvl : Z), maquillate t lvl [] = Err ZeroDivisionError).
Proof.
  assert (Hsame : ∀ hs cells, annotate_cells (Some []) hs cells = annotate_cells None hs cells).
  { intros hs cells. revert hs. induction cells as [|cell rest IH]; intros hs; [done|].
    cbn [annotate_cells]. by rewrite IH. }
  split; [|split; [|split]].
  - intros cell_id document. split.
    + by rewrite !create_new_document_seq, Hsame.
    + eexists. apply create_new_document_seq.
  - reflexivity.
  - reflexivity.
  - reflexivity.
Qed.

(** ** C2: the fields of a recorded heading *)

Lemma lookup_all_headings (cells : list Cell) (k : nat) :
  all_headings [] cells !! k = heading_of k <$> heading_lines cells !! k.
Proof. by rewrite all_headings_spec, app_nil_l, list_lookup_imap. Qed.

Lemma drop_chars_succ (n : nat) (s : string) :
  Py.drop_chars (S n) s = Py.drop_chars 1 (Py.drop_chars n s).
Proof.
  revert s. induction n as [|n IH]; intros s; [done|].
  destruct s as [|c s]; [done|]. change (Py.drop_chars (S (S n)) (String c s))
    with (Py.drop_chars (S n) s). by rewrite IH.
Qed.

(** C2, as stated, fails: the heading recorded for the line ["# A  B\n"] has
    the anchor [A__B_0], one underscore for each space, where the whitespace
    collapsed to one underscore gives [A_B_0]. *)
Lemma anchor_keeps_every_space :
  ¬ ∀ info new_cells k h word,
      generate_new_cells spaced_cells None = Ok (info, new_cells) →
      info !! k = Some h →
      heading_lines spaced_cells !! k = Some word →
      Spec.heading_as_specified k word h.
Proof.
  intros Hclaim.
  destruct (Hclaim _ _ 0 (heading_of 0 ("# A  B" +:+ Py.newline)) ("# A  B" +:+ Py.newline)
              (generate_new_cells_seq None spaced_cells)) as (_ & _ & Ha).
  - vm_compute. reflexivity.
  - vm_compute. reflexivity.
  - vm_compute in Ha. discriminate Ha.
Qed.

(** C2 (amended): a heading recorded in the table under the ordinal [k]
    comes from the [k]-th recorded line of the document, counted from zero in
    the order the pass meets the lines. Its anchor is its title without the
    whitespace at its end and with an underscore for each space, then an
    underscore and [k] in decimal. When the line has no [#] after the run of
    [#] it starts with and a space follows that run, the level is the count
    of the leading [#] characters minus one and the title is the text of the
    line after the leading run and that one space. *)
Theorem recorded_heading_fields (cells : list Cell) (colors : option (list string))
    (info : gmap nat Heading) (new_cells : list Cell) (k : nat) (h : Heading) :
  generate_new_cells cells colors = Ok (info, new_cells) →
  info !! k = Some h →
  ∃ word,
    heading_lines cells !! k = Some word ∧
    Py.startswith "#" word = true ∧
    anchor h = Py.replace_char " " "_" (Py.rstrip (title h)) +:+ "_" +:+ Py.str k ∧
    (Py.count_char "#" word = leading_hashes word →
     (∃ text, Py.drop_chars (leading_hashes word) word = String " " text) →
     level h = Spec.heading_level word ∧
     title h = Spec.heading_title word).
Proof.
  rewrite generate_new_cells_seq. intros [= <- _].
  rewrite lookup_map_seq_0, lookup_all_headings.
  destruct (heading_lines cells !! k) as [word|] eqn:Hword; [|done].
  intros [= <-]. exists word. split; [done|]. split; [|split; [done|]].
  - apply list_elem_of_lookup_2 in Hword. unfold heading_lines in Hword.
    apply list_elem_of_In, in_flat_map in Hword as (cell & _ & Hin).
    destruct (is_heading_cell cell); [|done].
    unfold hash_lines in Hin. by apply filter_In in Hin as [_ Hin].
  - intros Hcount [text Htext]. unfold heading_of. cbn [level title]. rewrite Hcount.
    split; [done|]. unfold Py.slice_from, Spec.heading_title.
    destruct (Z.ltb_spec (Z.of_nat (leading_hashes word) - 1 + 2) 0) as [?|_]; [lia|].
    replace (Z.to_nat (Z.of_nat (leading_hashes word) - 1 + 2))
      with (S (leading_hashes word)) by lia.
    by rewrite drop_chars_succ, Htext.
Qed.

Lemma recorded_heading_fields_witness :
  level (heading_of 1 ("## Details" +:+ Py.newline)) = 1%Z ∧
  title (heading_of 1 ("## Details" +:+ Py.newline)) = "Details" +:+ Py.newline ∧
  anchor (heading_of 1 ("## Details" +:+ Py.newline)) = "Details_1".
Proof.
  destruct (recorded_heading_fields (cells example_doc) None
              (map_seq 0 (all_headings [] (cells example_doc)))
              (annotate_cells None [] (cells example_doc))
              1 (heading_of 1 ("## Details" +:+ Py.newline)))
    as (word & Hword & _ & Hanchor & Hfields).
  - vm_compute. reflexivity.
  - vm_compute. reflexivity.
  - vm_compute in Hword. injection Hword as <-.
    destruct Hfields as [Hlevel Htitle];
      [reflexivity|by exists ("Details" +:+ Py.newline)|].
    split; [rewrite Hlevel; reflexivity|].
    split; [rewrite Htitle; reflexivity|].
    rewrite Hanchor, Htitle. reflexivity.
Defined.

(** ** C3: the anchors of a document are distinct *)

Lemma anchors_NoDup (cells : list Cell) : NoDup (anchor <$> all_headings [] cells).
Proof.
  apply NoDup_alt. intros i j a. rewrite !list_lookup_fmap, !lookup_all_headings.
  destruct (heading_lines cells !! i) as [wi|]; [|done].
  destruct (heading_lines cells !! j) as [wj|]; [|done].
  simpl. intros [= <-] [= Heq]. symmetry. by apply anchor_ordinal_inj in Heq.
Qed.

(** C3: the transformation of a document with [N] recorded heading lines
    never fails; its table holds exactly the ordinals [0 .. N-1], the ordinal
    [k] for the [k]-th recorded line in the order the pass meets the lines;
    the anchor under the ordinal [k] ends in an underscore and [k] in
    decimal; the [N] anchors are pairwise distinct; and the contents cell of
    the result lists them in increasing ordinal order. *)
Theorem anchors_unique (cell_id : string) (document : Document)
    (colors : option (list string)) :
  ∃ (hs : list Heading) (toc : Cell) (new_cells : list Cell),
    generate_new_cells (cells document) colors = Ok (map_seq 0 hs, new_cells) ∧
    create_new_document cell_id document colors =
      Ok (set_cells document (toc :: new_cells)) ∧
    source toc = contents_header :: (toc_line <$> hs) ∧
    length hs = length (heading_lines (cells document)) ∧
    (∀ k, is_Some ((map_seq 0 hs : gmap nat Heading) !! k) ↔ k < length hs) ∧
    (∀ k h, hs !! k = Some h →
       ∃ word, heading_lines (cells document) !! k = Some word ∧
               h = heading_of k word ∧
               anchor h =
                 Py.replace_char " " "_" (Py.rstrip (title h)) +:+ "_" +:+ Py.str k) ∧
    NoDup (anchor <$> hs).
Proof.
  exists (all_headings [] (cells document)),
         (contents_cell cell_id (all_headings [] (cells document))),
         (annotate_cells colors [] (cells document)).
  split; [apply generate_new_cells_seq|].
  split; [apply create_new_document_seq|].
  split; [done|].
  split; [by rewrite all_headings_spec, app_nil_l, length_imap|].
  split; [intros k; by rewrite lookup_map_seq_0, lookup_lt_is_Some|].
  split; [|apply anchors_NoDup].
  intros k h. rewrite lookup_all_headings.
  destruct (heading_lines (cells document) !! k) as [word|]; [|done].
  intros [= <-]. by exists word.
Qed.

(** ** C4: a cell with several heading lines *)

(** C4: for a markdown cell whose first line starts with [#] and that has
    [k] lines starting with [#], met when the table holds the ordinals
    [0 .. n-1]: [k] is at least one; the table grows by [k] entries, the
    [j]-th of these lines under the ordinal [n + j], the earlier entries as
    they were; and the cell is appended with one line put before its source,
    the anchor tag of the entry with the highest ordinal [n + k - 1], and
    with its first line written anew from the level and title of that entry,
    the lines after the first as they were. *)
Theorem heading_cell_one_anchor (colors : option (list string)) (hs : list Heading)
    (new_cells : list Cell) (cell : Cell) (first : string) (rest : list string) :
  cell_type cell = "markdown" →
  source cell = first :: rest →
  Py.startswith "#" first = true →
  ∃ (info' : gmap nat Heading) (last_h : Heading),
    process_cell colors (map_seq 0 hs, new_cells) cell =
      Ok (info',
          new_cells ++
          [ {| cell_type := cell_type cell;
               source := (term_i +:+ anchor last_h +:+ term_f)
                         :: heading_line colors last_h :: rest;
               cell_fields := cell_fields cell |} ]) ∧
    1 ≤ length (hash_lines (source cell)) ∧
    size info' = length hs + length (hash_lines (source cell)) ∧
    (∀ j, j < length hs → info' !! j = hs !! j) ∧
    (∀ j word, hash_lines (source cell) !! j = Some word →
       info' !! (length hs + j) = Some (heading_of (length hs + j) word)) ∧
    info' !! (length hs + length (hash_lines (source cell)) - 1) = Some last_h.
Proof.
  intros Htype Hsource Hfirst.
  assert (Hc : is_heading_cell cell = true).
  { unfold is_heading_cell. rewrite Htype, Hsource, Hfirst. reflexivity. }
  destruct (record_lines_heading_cell hs cell Hc) as [_ [last_h Hlast]].
  exists (map_seq 0 (record_lines hs (source cell))), last_h.
  assert (Hk : 1 ≤ length (hash_lines (source cell))).
  { rewrite Hsource. unfold hash_lines. simpl. rewrite Hfirst. simpl. lia. }
  split; [|split; [exact Hk|split; [|split; [|split]]]].
  - rewrite process_cell_seq. unfold step_headings, step_cell.
    rewrite Hc, Hlast. unfold annotate_source, anchor_tag. by rewrite Hsource.
  - by rewrite size_map_seq, length_record_lines.
  - intros j Hj. rewrite lookup_map_seq_0, record_lines_spec. by apply lookup_app_l.
  - intros j word Hword.
    rewrite lookup_map_seq_0, record_lines_spec, lookup_app_r by lia.
    replace (length hs + j - length hs) with j by lia.
    by rewrite list_lookup_imap, Hword.
  - rewrite lookup_map_seq_0, <-Hlast, last_lookup, length_record_lines.
    f_equal. lia.
Qed.

Lemma heading_cell_one_anchor_witness :
  ∃ (info' : gmap nat Heading),
    process_cell None (∅, []) two_heading_cell =
      Ok (info',
          [ {| cell_type := "markdown";
               source :=
                 [ "<a class=" +:+ Py.quote +:+ "anchor" +:+ Py.quote +:+ " id="
                   +:+ Py.quote +:+ "B_1" +:+ Py.quote +:+ "></a>" +:+ Py.newline;
                   "## B" +:+ Py.newline; "text" +:+ Py.newline; "## B" +:+ Py.newline ];
               cell_fields := [] |} ]) ∧
    size info' = 2 ∧
    info' !! 0 = Some {| title := "A" +:+ Py.newline; level := 0; anchor := "A_0" |} ∧
    info' !! 1 = Some {| title := "B" +:+ Py.newline; level := 1; anchor := "B_1" |}.
Proof.
  destruct (heading_cell_one_anchor None [] [] two_heading_cell
              ("# A" +:+ Py.newline) ["text" +:+ Py.newline; "## B" +:+ Py.newline])
    as (info' & last_h & Hcell & _ & Hsize & _ & Hlines & Hlast);
    [reflexivity..|].
  exists info'.
  pose proof (Hlines 0 _ eq_refl) as H0. pose proof (Hlines 1 _ eq_refl) as H1.
  change (info' !! 0 = Some {| title := "A" +:+ Py.newline; level := 0; anchor := "A_0" |})
    in H0.
  change (info' !! 1 = Some {| title := "B" +:+ Py.newline; level := 1; anchor := "B_1" |})
    in H1.
  change (info' !! 1 = Some last_h) in Hlast.
  rewrite H1 in Hlast. injection Hlast as <-.
  split; [exact Hcell|]. split; [exact Hsize|]. split; [exact H0|exact H1].
Defined.

(** The cell of [two_heading_cell] after its turn: the tag and the first
    line are those of the second heading. *)
Example two_heading_cell_result :
  source (step_cell None [] two_heading_cell) =
  [ "<a class=" +:+ Py.quote +:+ "anchor" +:+ Py.quote +:+ " id="
    +:+ Py.quote +:+ "B_1" +:+ Py.quote +:+ "></a>" +:+ Py.newline;
    "## B" +:+ Py.newline; "text" +:+ Py.newline; "## B" +:+ Py.newline ].
Proof. vm_compute. reflexivity. Qed.

(** ** C8: running the transformation twice *)

Lemma step_cell_not_heading (colors : option (list string)) (hs : list Heading)
    (cell : Cell) :
  is_heading_cell (step_cell colors hs cell) = false.
Proof.
  unfold step_cell. destruct (is_heading_cell cell) eqn:Hc; [|done].
  destruct (record_lines_heading_cell hs cell Hc) as [_ [h Hlast]]. rewrite Hlast.
  unfold is_heading_cell. cbn [source set_source annotate_source].
  apply andb_false_r.
Qed.

Lemma annotate_cells_not_heading (colors : option (list string)) (hs : list Heading)
    (cells : list Cell) :
  Forall (λ cell, is_heading_cell cell = false) (annotate_cells colors hs cells).
Proof.
  revert hs. induction cells as [|cell rest IH]; intros hs; cbn [annotate_cells];
    constructor; [apply step_cell_not_heading|apply IH].
Qed.

Lemma contents_cell_not_heading (cell_id : string) (hs : list Heading) :
  is_heading_cell (contents_cell cell_id hs) = false.
Proof. reflexivity. Qed.

(** C8, as stated, fails in its reason: on the annotated example document a
    second pass records no heading and rewrites no cell, so that no heading
    is annotated twice. *)
Lemma example_not_annotated_twice :
  ¬ ∃ d info new_cells,
      create_new_document "1a2b3c4d" example_doc None = Ok d ∧
      generate_new_cells (cells d) None = Ok (info, new_cells) ∧
      (info ≠ ∅ ∨ new_cells ≠ cells d).
Proof.
  intros (d & info & new_cells & Hd & Hgen & Hdiff).
  rewrite create_new_document_seq in Hd. injection Hd as <-.
  rewrite generate_new_cells_seq in Hgen. injection Hgen as <- <-.
  destruct Hdiff as [Hne|Hne]; apply Hne; vm_compute; reflexivity.
Qed.

(** C8 (amended): the transformation is not idempotent. For every document
    the first run succeeds, and a second run on its result succeeds and
    returns that result with one more cell before its cells, a contents cell
    whose source is the header line alone; every cell of the first result,
    the first contents cell and the annotated heading cells among them, is
    kept as it is, and the second result differs from the first. *)
Theorem rerun_prepends_empty_contents (cell_id cell_id' : string) (document : Document)
    (colors colors' : option (list string)) :
  ∃ d,
    create_new_document cell_id document colors = Ok d ∧
    create_new_document cell_id' d colors' =
      Ok (set_cells d
            ({| cell_type := "markdown";
                source := [" # Table of Contents" +:+ Py.newline];
                cell_fields := [("id", JStr cell_id'); ("metadata", JObj [])] |}
             :: cells d)) ∧
    create_new_document cell_id' d colors' ≠ Ok d.
Proof.
  eexists. split; [apply create_new_document_seq|].
  assert (Hrerun : ∀ d, Forall (λ cell, is_heading_cell cell = false) (cells d) →
            create_new_document cell_id' d colors' =
            Ok (set_cells d (contents_cell cell_id' [] :: cells d))).
  { intros d Hd. rewrite create_new_document_seq.
    by destruct (pass_without_heading_cells colors' [] (cells d) Hd) as [-> ->]. }
  rewrite Hrerun.
  - split; [reflexivity|]. intros Heq.
    apply (f_equal (λ r, match r with Ok d => length (cells d) | Err _ => 0 end)) in Heq.
    cbn [cells set_cells length] in Heq. lia.
  - cbn [cells set_cells]. constructor.
    + apply contents_cell_not_heading.
    + apply annotate_cells_not_heading.
Qed.

(** ** C9: the name of the saved file *)

Lemma split_head_no_dot (sep_rest stem : string) :
  Py.count_char "." stem = O →
  Py.split_head (String "." sep_rest) (stem +:+ String "." sep_rest) = stem.
Proof.
  intros Hdot. induction stem as [|c stem IH].
  - rewrite sapp_nil_l. cbn [Py.split_head]. by rewrite prefix_refl.
  - rewrite sapp_cons. cbn [Py.split_head String.prefix]. cbn [Py.count_char] in Hdot.
    destruct (ascii_dec "." c) as [<-|_].
    + rewrite Ascii.eqb_refl in Hdot. lia.
    + rewrite IH; [done|]. lia.
Qed.

(** For a file name whose only dot is that of its [.ipynb] suffix the saved
    name is the name of the specification. *)
Lemma save_name_plain_stem (stem : string) :
  Py.count_char "." stem = O →
  save_doc_enchulado_name (stem +:+ ".ipynb") = stem +:+ "_chulo.ipynb".
Proof.
  intros Hdot. unfold save_doc_enchulado_name.
  by rewrite (split_head_no_dot "ipynb" stem Hdot).
Qed.

(** C9 at a path of a checkpoint directory: the code cuts the path at its
    first [.ipynb], which here is the start of the directory name, and saves
    to [_chulo.ipynb]; stripping the suffix gives
    [.ipynb_checkpoints/nb_chulo.ipynb]. *)
Theorem save_name_cut_at_first_ipynb :
  save_doc_enchulado_name ".ipynb_checkpoints/nb.ipynb" = "_chulo.ipynb" ∧
  Spec.save_name ".ipynb_checkpoints/nb.ipynb" = ".ipynb_checkpoints/nb_chulo.ipynb" ∧
  save_doc_enchulado_name ".ipynb_checkpoints/nb.ipynb"
    ≠ Spec.save_name ".ipynb_checkpoints/nb.ipynb".
Proof. split; [|split]; [by vm_compute..|]. vm_compute. discriminate. Qed.

(** * Further properties of the program *)

(** ** Errors of the single functions *)

(** X2: [maquillate] fails exactly on the empty color list, with
    [ZeroDivisionError]; a negative level is no error: the level [-1] takes
    the last color. *)
Theorem maquillate_fails_iff_no_color :
  (∀ (t : string) (lvl : Z) (cs : list string) (e : py_error),
     maquillate t lvl cs = Err e ↔ cs = [] ∧ e = ZeroDivisionError) ∧
  (∀ (t : string) (cs : list string) (color : string),
     last cs = Some color →
     maquillate t (-1) cs =
     Ok ("<span style=" +:+ Py.quote +:+ "color: " +:+ color +:+ Py.quote
         +:+ ">" +:+ t +:+ "</span>")).
Proof.
  split.
  - intros t lvl cs e. split.
    + destruct cs as [|c cs]; [by intros [= <-]|].
      destruct (pick_color_is_Some (c :: cs) lvl) as [color Hcolor]; [done|].
      by rewrite (maquillate_span _ _ _ _ Hcolor).
    + by intros [-> ->].
  - intros t cs color Hlast. apply maquillate_span. unfold pick_color.
    rewrite last_lookup in Hlast. rewrite <-Hlast. f_equal.
    destruct cs as [|c cs]; [done|]. cbn [length Nat.pred].
    rewrite <-(Z.mod_unique (-1) (Z.of_nat (S (length cs))) (-1) (Z.of_nat (length cs)))
      by lia.
    lia.
Qed.

(** X3: [create_source_anchor] fails exactly on an empty source, with
    [IndexError], whatever the colors; on a source with a first line it
    returns the anchor tag line, one line in the place of the first line, and
    the lines after the first as they were. *)
Theorem create_source_anchor_needs_first_line :
  (∀ (h : Heading) (colors : option (list string)),
     create_source_anchor [] h colors = Err IndexError) ∧
  (∀ (first : string) (rest : list string) (h : Heading) (colors : option (list string)),
     ∃ line,
       create_source_anchor (first :: rest) h colors =
       Ok ((term_i +:+ anchor h +:+ term_f) :: line :: rest)).
Proof.
  split.
  - intros h colors. unfold create_source_anchor.
    destruct (truthy colors) as [cs|] eqn:Hcs; [|reflexivity].
    assert (Hne : cs ≠ []).
    { destruct colors as [[|c cs']|]; simpl in Hcs; by simplify_eq. }
    destruct (pick_color_is_Some cs (level h) Hne) as [color Hcolor].
    by rewrite (maquillate_span _ _ _ _ Hcolor).
  - intros first rest h colors. exists (heading_line colors h).
    by rewrite create_source_anchor_ok.
Qed.

(** X4: [format_title_index] fails exactly on a key that the table lacks,
    with [KeyError]; for a key of the table the line is the tabs of the
    level, then [+ [title](#anchor)] and a newline, whatever characters the
    anchor holds: the substitution by the regular expression puts the whole
    anchor in parentheses after a [#]. *)
Theorem format_title_index_any_table (k : nat) (titles : gmap nat Heading) :
  format_title_index k titles =
  match titles !! k with
  | Some h =>
      Ok (Py.repeat Py.tab (level h) +:+ "+ " +:+ ("[" +:+ title h +:+ "]")
          +:+ ("(#" +:+ anchor h +:+ ")") +:+ Py.newline)
  | None => Err KeyError
  end.
Proof.
  unfold format_title_index. destruct (titles !! k) as [h|]; [|done].
  by rewrite sub_term_self.
Qed.

Lemma contents_lines_any_table (m : gmap nat Heading) (keys : list nat) (src : list string) :
  Forall (λ k, is_Some (m !! k)) keys →
  ∃ lines,
    contents_lines keys m src = Ok (src ++ lines) ∧
    Forall2 (λ k line, ∃ h, m !! k = Some h ∧ line = toc_line h) keys lines.
Proof.
  intros Hkeys. revert src.
  induction Hkeys as [|k keys [h Hk] _ IH]; intros src.
  - exists []. by rewrite app_nil_r.
  - destruct (IH (src ++ [toc_line h])) as (lines & Hlines & HF).
    exists (toc_line h :: lines). split.
    + cbn [contents_lines]. rewrite format_title_index_any_table, Hk. cbn [rbind].
      fold (toc_line h). rewrite Hlines. by rewrite <-app_assoc.
    + constructor; [by exists h|done].
Qed.

(** X5: [generate_contents] never fails, on any table, also one whose keys
    are not [0 .. n-1]: the source of its cell is the header line and then
    one line for each key of the table, the keys in increasing order without
    repetition. *)
Theorem generate_contents_any_table (cell_id : string) (m : gmap nat Heading) :
  ∃ (keys : list nat) (lines : list string),
    generate_contents cell_id m =
      Ok {| cell_type := "markdown";
            source := contents_header :: lines;
            cell_fields := [("id", JStr cell_id); ("metadata", JObj [])] |} ∧
    Sorted Nat.le keys ∧ NoDup keys ∧
    (∀ k, k ∈ keys ↔ is_Some (m !! k)) ∧
    length keys = size m ∧
    Forall2 (λ k line, ∃ h, m !! k = Some h ∧ line = toc_line h) keys lines.
Proof.
  assert (Hperm : sorted_keys m ≡ₚ elements (dom m)).
  { unfold sorted_keys. apply merge_sort_Permutation. }
  assert (Hin : ∀ k, k ∈ sorted_keys m ↔ is_Some (m !! k)).
  { intros k. by rewrite Hperm, elem_of_elements, elem_of_dom. }
  destruct (contents_lines_any_table m (sorted_keys m) [contents_header])
    as (lines & Hlines & HF).
  { apply Forall_forall. intros k Hk. by apply Hin. }
  exists (sorted_keys m), lines.
  split; [unfold generate_contents; by rewrite Hlines|].
  split; [apply Sorted_merge_sort, _|].
  split; [rewrite Hperm; apply NoDup_elements|].
  split; [exact Hin|]. split; [|exact HF].
  by rewrite Hperm, <-size_dom.
Qed.

(** ** The whole transformation *)

(** X1: the transformation never fails, and it changes nothing but the list
    of cells and, in a cell, the source: the other fields of the document are
    kept, the result has one cell more than the input, and cell [i] of the
    input is cell [i + 1] of the result with its type and its other fields
    as they were and its source either as it was or with the anchor tag line
    first, one line in the place of its first line, and its other lines as
    they were. *)
Theorem transformation_frame (cell_id : string) (document : Document)
    (colors : option (list string)) :
  ∃ d,
    create_new_document cell_id document colors = Ok d ∧
    doc_fields d = doc_fields document ∧
    length (cells d) = S (length (cells document)) ∧
    ∀ i cell,
      cells document !! i = Some cell →
      ∃ cell',
        cells d !! S i = Some cell' ∧
        cell_type cell' = cell_type cell ∧
        cell_fields cell' = cell_fields cell ∧
        (source cell' = source cell ∨
         ∃ tag line, source cell' = tag :: line :: tail (source cell)).
Proof.
  eexists. split; [apply create_new_document_seq|].
  cbn [doc_fields cells set_cells length]. split; [done|].
  split; [by rewrite length_annotate_cells|].
  intros i cell Hi. eexists. split; [by apply lookup_annotate_cells|].
  unfold step_cell. destruct (is_heading_cell cell); [|by auto].
  destruct (last _) as [h|]; [|by auto].
  cbn [cell_type cell_fields source set_source]. unfold annotate_source.
  split; [done|]. split; [done|]. right. eauto.
Qed.

(** X7: the colors reach the heading lines of the cells only. The table of
    the headings and the contents cell are the same with any colors as
    without colors; the rewritten cells are as many; and cell by cell the
    cell rewritten with colors has the type and the other fields of the cell
    rewritten without colors, and either it is that very cell, or the input
    cell is a markdown cell whose first line starts with [#] and the two
    sources have the same anchor tag line and the same lines after the
    second, and differ at most in the heading line. *)
Theorem contents_without_colors (cell_id : string) (document : Document)
    (colors : option (list string)) :
  ∃ (info : gmap nat Heading) (toc : Cell) (new_cells new_cells' : list Cell),
    generate_new_cells (cells document) colors = Ok (info, new_cells) ∧
    generate_new_cells (cells document) None = Ok (info, new_cells') ∧
    create_new_document cell_id document colors =
      Ok (set_cells document (toc :: new_cells)) ∧
    create_new_document cell_id document None =
      Ok (set_cells document (toc :: new_cells')) ∧
    length new_cells = length new_cells' ∧
    ∀ i cell,
      cells document !! i = Some cell →
      ∃ c c',
        new_cells !! i = Some c ∧
        new_cells' !! i = Some c' ∧
        cell_type c = cell_type c' ∧
        cell_fields c = cell_fields c' ∧
        (c = c' ∨
         (cell_type cell = "markdown" ∧
          (∃ first, head (source cell) = Some first ∧ Py.startswith "#" first = true) ∧
          ∃ tag line line' rest,
            source c = tag :: line :: rest ∧ source c' = tag :: line' :: rest)).
Proof.
  exists (map_seq 0 (all_headings [] (cells document))),
         (contents_cell cell_id (all_headings [] (cells document))),
         (annotate_cells colors [] (cells document)),
         (annotate_cells None [] (cells document)).
  split; [apply generate_new_cells_seq|]. split; [apply generate_new_cells_seq|].
  split; [apply create_new_document_seq|]. split; [apply create_new_document_seq|].
  split; [by rewrite !length_annotate_cells|].
  intros i cell Hi. eexists _, _.
  split; [by apply lookup_annotate_cells|]. split; [by apply lookup_annotate_cells|].
  unfold step_cell. destruct (is_heading_cell cell) eqn:Hc; [|by auto].
  destruct (last _) as [h|]; [|by auto].
  cbn [cell_type cell_fields source set_source]. unfold annotate_source.
  split; [done|]. split; [done|]. right.
  unfold is_heading_cell in Hc. apply andb_true_iff in Hc as [Ht Hf].
  split; [by apply String.eqb_eq|]. split; [|by eauto 10].
  destruct (source cell) as [|first rest]; [done|]. by exists first.
Qed.

(** X8: the pass over a list of cells followed by further cells is the pass
    over the first cells, carried on over the further cells: the first cells
    are rewritten as they are when they stand alone, and their headings keep
    their ordinals and anchors in the table of the whole. *)
Theorem pass_of_appended_cells (cells1 cells2 : list Cell) (colors : option (list string)) :
  ∃ (info1 info : gmap nat Heading) (new1 new2 : list Cell),
    generate_new_cells cells1 colors = Ok (info1, new1) ∧
    scan_cells colors (info1, new1) cells2 = Ok (info, new1 ++ new2) ∧
    generate_new_cells (cells1 ++ cells2) colors = Ok (info, new1 ++ new2) ∧
    length new1 = length cells1 ∧
    info1 ⊆ info.
Proof.
  exists (map_seq 0 (all_headings [] cells1)),
         (map_seq 0 (all_headings (all_headings [] cells1) cells2)),
         (annotate_cells colors [] cells1),
         (annotate_cells colors (all_headings [] cells1) cells2).
  split; [apply generate_new_cells_seq|].
  split; [apply scan_cells_seq|].
  split; [by rewrite generate_new_cells_seq, all_headings_app, annotate_cells_app|].
  split; [apply length_annotate_cells|].
  apply map_subseteq_spec. intros k h. rewrite !lookup_map_seq_0.
  rewrite (all_headings_spec (all_headings [] cells1) cells2).
  apply lookup_app_l_Some.
Qed.

(** ** The recorded headings *)

Lemma replace_space_no_space (s : string) :
  Py.count_char " " (Py.replace_char " " "_" s) = 0.
Proof.
  induction s as [|c s IH]; [done|]. cbn [Py.replace_char Py.count_char].
  rewrite IH. destruct (Ascii.eqb_spec c " ") as [->|Hne]; [done|].
  destruct (Ascii.eqb_spec " " c) as [<-|_]; done.
Qed.

Lemma str_no_space (n : nat) : Py.count_char " " (Py.str n) = 0.
Proof.
  unfold Py.str.
  induction (Nat.to_uint n) as [|d IH|d IH|d IH|d IH|d IH|d IH|d IH|d IH|d IH|d IH];
    simpl; done.
Qed.

Lemma startswith_hash_count (word : string) :
  Py.startswith "#" word = true → 1 ≤ Py.count_char "#" word.
Proof.
  destruct word as [|c word]; [done|]. unfold Py.startswith. cbn [String.prefix Py.count_char].
  destruct (ascii_dec "#" c) as [<-|_]; [|done]. rewrite Ascii.eqb_refl. lia.
Qed.

(** X6: the pass never fails, and every heading of its table has a level
    that is not negative and an anchor without a space character. *)
Theorem recorded_heading_well_formed (cells : list Cell) (colors : option (list string)) :
  ∃ (info : gmap nat Heading) (new_cells : list Cell),
    generate_new_cells cells colors = Ok (info, new_cells) ∧
    ∀ k h, info !! k = Some h →
           (0 ≤ level h)%Z ∧ Py.count_char " " (anchor h) = 0.
Proof.
  eexists _, _. split; [apply generate_new_cells_seq|].
  intros k h. rewrite lookup_map_seq_0, lookup_all_headings.
  destruct (heading_lines cells !! k) as [word|] eqn:Hword; [|done].
  intros [= <-]. apply list_elem_of_lookup_2, heading_lines_startswith in Hword.
  apply startswith_hash_count in Hword. unfold heading_of. cbn [level anchor].
  split; [lia|].
  rewrite !count_char_app, replace_space_no_space, str_no_space. done.
Qed.

(** X9: the anchor tag that the transformation puts before a heading cell
    is listed in the contents cell: for a markdown cell at place [i] whose
    first line starts with [#], cell [i + 1] of the result starts with the
    anchor tag line of a heading whose line stands in the source of the
    contents cell. *)
Theorem inserted_anchor_listed (cell_id : string) (document : Document)
    (colors : option (list string)) (i : nat) (cell : Cell)
    (first : string) (rest : list string) :
  cells document !! i = Some cell →
  cell_type cell = "markdown" →
  source cell = first :: rest →
  Py.startswith "#" first = true →
  ∃ d toc cell' h,
    create_new_document cell_id document colors = Ok d ∧
    cells d !! 0 = Some toc ∧
    cells d !! S i = Some cell' ∧
    head (source cell') = Some (term_i +:+ anchor h +:+ term_f) ∧
    toc_line h ∈ source toc.
Proof.
  intros Hi Htype Hsource Hfirst.
  assert (Hc : is_heading_cell cell = true).
  { unfold is_heading_cell. rewrite Htype, Hsource, Hfirst. reflexivity. }
  destruct (record_lines_heading_cell (all_headings [] (take i (cells document))) cell Hc)
    as [_ [h Hlast]].
  eexists _, _, _, h. split; [apply create_new_document_seq|].
  cbn [cells set_cells]. split; [reflexivity|].
  split; [by apply lookup_annotate_cells|].
  unfold step_cell. rewrite Hc, Hlast. split; [reflexivity|].
  cbn [source contents_cell]. apply elem_of_cons. right.
  apply list_elem_of_fmap_2.
  rewrite <-(take_drop_middle (cells document) i cell Hi) at 1.
  rewrite all_headings_app. cbn [all_headings]. unfold step_headings at 1. rewrite Hc.
  rewrite all_headings_spec. apply elem_of_app. left.
  by apply last_Some_elem_of.
Qed.

Lemma inserted_anchor_listed_witness :
  ∃ d toc cell' h,
    create_new_document "1a2b3c4d" example_doc None = Ok d ∧
    cells d !! 0 = Some toc ∧
    cells d !! 3 = Some cell' ∧
    head (source cell') = Some (term_i +:+ anchor h +:+ term_f) ∧
    toc_line h ∈ source toc.
Proof.
  apply (inserted_anchor_listed "1a2b3c4d" example_doc None 2
           (md ["## Details" +:+ Py.newline]) ("## Details" +:+ Py.newline) []);
    reflexivity.
Defined.






(** ** The table of [extract_info] *)

Lemma extract_info_cons (word : string) (source : list string) (titles : gmap nat Heading) :
  extract_info (word :: source) titles = extract_info source (extract_line titles word).
Proof. reflexivity. Qed.

(** X11: [extract_info] keeps the table an initial segment of the ordinals.
    On a table whose keys are [0 .. n-1], the keys of the result are
    [0 .. n+k-1] for the [k] lines of the source that start with [#], and
    the entries under the keys below [n] are as they were. *)
Theorem extract_info_keeps_ordinals (source : list string) (titles : gmap nat Heading) :
  dom titles = set_seq 0 (size titles) →
  dom (extract_info source titles) = set_seq 0 (size (extract_info source titles)) ∧
  size (extract_info source titles) = size titles + length (hash_lines source) ∧
  ∀ k, k < size titles → extract_info source titles !! k = titles !! k.
Proof.
  revert titles. induction source as [|word source IH]; intros titles Hdom.
  - cbn. split; [done|]. split; [lia|done].
  - rewrite extract_info_cons, extract_line_unfold. unfold hash_lines. cbn [List.filter].
    destruct (Py.startswith "#" word).
    + assert (Hnone : titles !! size titles = None).
      { apply not_elem_of_dom. rewrite Hdom, elem_of_set_seq. lia. }
      assert (Hsize : size (<[size titles := heading_of (size titles) word]> titles)
                      = S (size titles)) by by apply map_size_insert_None.
      destruct (IH (<[size titles := heading_of (size titles) word]> titles))
        as (IH1 & IH2 & IH3).
      { rewrite Hsize, dom_insert_L, Hdom. apply set_eq. intros k.
        rewrite elem_of_union, elem_of_singleton, !elem_of_set_seq. lia. }
      split; [exact IH1|]. split.
      * rewrite IH2, Hsize. cbn [length]. unfold hash_lines. lia.
      * intros k Hk. rewrite IH3 by lia. apply lookup_insert_ne. lia.
    + by apply IH.
Qed.

Lemma extract_info_keeps_ordinals_witness :
  dom (extract_info ["# A"; "text"; "## B"] ∅) =
    set_seq 0 (size (extract_info ["# A"; "text"; "## B"] ∅)) ∧
  size (extract_info ["# A"; "text"; "## B"] ∅) =
    size (∅ : gmap nat Heading) + length (hash_lines ["# A"; "text"; "## B"]) ∧
  ∀ k, k < size (∅ : gmap nat Heading) →
       extract_info ["# A"; "text"; "## B"] ∅ !! k = (∅ : gmap nat Heading) !! k.
Proof.
  apply (extract_info_keeps_ordinals ["# A"; "text"; "## B"] ∅).
  reflexivity.
Defined.

(** X12: on any table, [extract_info] removes no key and adds at most one
    entry for each line that starts with [#]; a source without such a line
    leaves the table as it is. On a table that already has the key equal to
    its size, a line that starts with [#] replaces the entry under that key
    and the table does not grow. *)
Theorem extract_info_any_table (source : list string) (titles : gmap nat Heading) :
  (∀ k, is_Some (titles !! k) → is_Some (extract_info source titles !! k)) ∧
  size titles ≤ size (extract_info source titles) ≤ size titles + length (hash_lines source) ∧
  (hash_lines source = [] → extract_info source titles = titles) ∧
  (∀ word, Py.startswith "#" word = true → is_Some (titles !! size titles) →
           extract_info [word] titles !! size titles = Some (heading_of (size titles) word) ∧
           size (extract_info [word] titles) = size titles).
Proof.
  split; [|split; [|split]].
  - revert titles. induction source as [|word source IH]; intros titles k Hk; [done|].
    rewrite extract_info_cons. apply IH. rewrite extract_line_unfold.
    destruct (Py.startswith "#" word); [|done].
    rewrite lookup_insert_is_Some. destruct (decide (size titles = k)); auto.
  - revert titles. induction source as [|word source IH]; intros titles.
    { cbn. lia. }
    rewrite extract_info_cons. specialize (IH (extract_line titles word)).
    rewrite extract_line_unfold in *. unfold hash_lines in *. cbn [List.filter].
    destruct (Py.startswith "#" word); [|done].
    rewrite map_size_insert in IH. cbn [length].
    destruct (titles !! size titles); simpl in IH; lia.
  - revert titles. induction source as [|word source IH]; intros titles Hnone; [done|].
    rewrite extract_info_cons, extract_line_unfold. unfold hash_lines in *.
    cbn [List.filter] in Hnone. destruct (Py.startswith "#" word); [done|]. by apply IH.
  - intros word Hword Hsome.
    change (extract_info [word] titles) with (extract_line titles word).
    rewrite extract_line_unfold, Hword. split.
    + apply lookup_insert_eq.
    + by apply map_size_insert_Some.
Qed.

(** ** The name of the saved file *)

(** [split_head] cuts its argument in two, and what it cuts off is empty or
    starts with the separator. *)
Lemma split_head_split (sep file : string) :
  ∃ rest,
    file = Py.split_head sep file +:+ rest ∧
    (rest = EmptyString ∨ String.prefix sep rest = true).
Proof.
  induction file as [|c file (rest & Hfile & Hrest)].
  - exists EmptyString. auto.
  - cbn [Py.split_head]. destruct (String.prefix sep (String c file)) eqn:Hp.
    + exists (String c file). auto.
    + exists rest. rewrite sapp_cons, <-Hfile. auto.
Qed.

(** X13: the file that [save_doc_enchulado] writes is never the file it was
    given: its name is a part of the given name, from its start, followed by
    [_chulo.ipynb], and differs from the given name. *)
Theorem save_name_never_the_input (file : string) :
  (∃ stem rest,
     file = stem +:+ rest ∧
     save_doc_enchulado_name file = stem +:+ "_chulo.ipynb") ∧
  save_doc_enchulado_name file ≠ file.
Proof.
  unfold save_doc_enchulado_name.
  destruct (split_head_split ".ipynb" file) as (rest & Hfile & Hrest).
  split; [by eauto|]. intros Heq. rewrite Hfile in Heq at 2.
  apply (inj (String.app _)) in Heq. subst rest.
  destruct Hrest as [Hrest|Hrest]; [discriminate Hrest|].
  vm_compute in Hrest. discriminate Hrest.
Qed.

Ltac prefix_char t :=
  cbn [String.prefix]; destruct (ascii_dec _ _) as [<-|?]; [|done];
  destruct t as [|? t];
  [ rewrite sapp_nil_l; vm_compute; done | rewrite sapp_cons ].

(** An occurrence of [.ipynb] at the start of a text followed by [.ipynb]
    lies in the text, when the text is not empty. *)
Lemma prefix_ipynb_boundary (c : ascii) (t : string) :
  String.prefix ".ipynb" (String c t +:+ ".ipynb") = true →
  String.prefix ".ipynb" (String c t) = true.
Proof.
  rewrite sapp_cons.
  prefix_char t. prefix_char t. prefix_char t. prefix_char t. prefix_char t.
  cbn [String.prefix]. destruct (ascii_dec _ _) as [<-|?]; [|done].
  destruct t; done.
Qed.

Lemma split_head_ipynb_suffix (stem : string) :
  contains ".ipynb" stem = false →
  Py.split_head ".ipynb" (stem +:+ ".ipynb") = stem.
Proof.
  induction stem as [|c stem IH]; intros Hno.
  - reflexivity.
  - cbn [contains] in Hno. apply orb_false_iff in Hno as [Hhere Hlater].
    rewrite sapp_cons. cbn [Py.split_head]. rewrite <-sapp_cons.
    destruct (String.prefix ".ipynb" (String c stem +:+ ".ipynb")) eqn:Hp.
    + apply prefix_ipynb_boundary in Hp. congruence.
    + by rewrite IH.
Qed.

Lemma split_head_absent (sep file : string) :
  contains sep file = false → Py.split_head sep file = file.
Proof.
  induction file as [|c file IH]; intros Hno; [done|].
  cbn [contains] in Hno. apply orb_false_iff in Hno as [Hhere Hlater].
  cbn [Py.split_head]. rewrite Hhere. by rewrite IH.
Qed.

(** X14: for a name that ends in [.ipynb] and has no other [.ipynb] before
    that ending, the saved file has the name without the ending, followed by
    [_chulo.ipynb]. *)
Theorem save_name_of_plain_notebook (stem : string) :
  contains ".ipynb" stem = false →
  save_doc_enchulado_name (stem +:+ ".ipynb") = stem +:+ "_chulo.ipynb".
Proof.
  intros Hno. unfold save_doc_enchulado_name. by rewrite split_head_ipynb_suffix.
Qed.

Lemma save_name_of_plain_notebook_witness :
  save_doc_enchulado_name ("../notes/week.1" +:+ ".ipynb") =
  "../notes/week.1" +:+ "_chulo.ipynb".
Proof.
  apply (save_name_of_plain_notebook "../notes/week.1"). reflexivity.
Defined.

(** X15: for a name in which [.ipynb] does not occur, nothing is taken
    off: the saved file has the whole name followed by [_chulo.ipynb]. *)
Theorem save_name_without_ipynb (file : string) :
  contains ".ipynb" file = false →
  save_doc_enchulado_name file = file +:+ "_chulo.ipynb".
Proof.
  intros Hno. unfold save_doc_enchulado_name. by rewrite split_head_absent.
Qed.

Lemma save_name_without_ipynb_witness :
  save_doc_enchulado_name "notes.txt" = "notes.txt" +:+ "_chulo.ipynb".
Proof. apply (save_name_without_ipynb "notes.txt"). reflexivity. Defined.

(** ** The identifier of the contents cell *)

Lemma length_sapp (s t : string) :
  String.length (s +:+ t) = String.length s + String.length t.
Proof.
  induction s as [|c s IH]; [done|]. rewrite sapp_cons. cbn [String.length].
  by rewrite IH.
Qed.

Lemma take_chars_sapp (n : nat) (s t : string) :
  n ≤ String.length s → Py.take_chars n (s +:+ t) = Py.take_chars n s.
Proof.
  revert s. induction n as [|n IH]; intros s Hn; [done|].
  destruct s as [|c s]; cbn [String.length] in Hn; [lia|].
  rewrite sapp_cons. cbn [Py.take_chars]. rewrite IH by lia. done.
Qed.

Lemma all_chars_sapp (p : ascii → bool) (s t : string) :
  all_chars p (s +:+ t) = all_chars p s && all_chars p t.
Proof.
  induction s as [|c s IH]; [done|]. rewrite sapp_cons. cbn [all_chars].
  by rewrite IH, andb_assoc.
Qed.

Lemma length_hex_pad (width : nat) (n : N) : String.length (hex_pad width n) = width.
Proof.
  revert n. induction width as [|w IH]; intros n; [done|].
  cbn [hex_pad]. rewrite length_sapp, IH. cbn [String.length]. lia.
Qed.

Lemma hex_digit_lower_hex (n : N) : is_lower_hex (hex_digit (n mod 16)) = true.
Proof.
  assert (Hlt : N.to_nat (n mod 16) < 16).
  { pose proof (N.mod_upper_bound n 16). lia. }
  unfold hex_digit. generalize dependent (N.to_nat (n mod 16)). intros k Hk.
  do 16 (destruct k as [|k]; [reflexivity|]). lia.
Qed.

Lemma hex_pad_lower_hex (width : nat) (n : N) :
  all_chars is_lower_hex (hex_pad width n) = true.
Proof.
  revert n. induction width as [|w IH]; intros n; [done|].
  cbn [hex_pad]. rewrite all_chars_sapp, IH. cbn [all_chars].
  by rewrite hex_digit_lower_hex.
Qed.

(** The first digits of a padded number are the padded quotient. *)
Lemma take_hex_pad (width k : nat) (n : N) :
  Py.take_chars width (hex_pad (width + k) n) =
  hex_pad width (n / 16 ^ N.of_nat k)%N.
Proof.
  revert n. induction k as [|k IH]; intros n.
  - rewrite Nat.add_0_r. cbn [N.of_nat]. rewrite N.pow_0_r, N.div_1_r.
    rewrite <-(length_hex_pad width n) at 1. apply take_chars_all.
  - rewrite Nat.add_succ_r. cbn [hex_pad].
    rewrite take_chars_sapp by (rewrite length_hex_pad; lia).
    rewrite IH, N.Div0.div_div. f_equal. f_equal.
    rewrite Nat2N.inj_succ, N.pow_succ_r'. done.
Qed.

(** X16: the identifier of the contents cell has eight characters, all
    lower-case hexadecimal digits; they are the eight digits of the 32 high
    bits of the integer of the UUID. *)
Theorem corpus_id_eight_hex_digits (u : N) :
  (u < 2 ^ 128)%N →
  String.length (generate_corpus_id u) = 8 ∧
  all_chars is_lower_hex (generate_corpus_id u) = true ∧
  generate_corpus_id u = hex_pad 8 (u / 2 ^ 96)%N ∧
  (u / 2 ^ 96 < 2 ^ 32)%N.
Proof.
  intros Hu.
  assert (Hid : generate_corpus_id u = hex_pad 8 (u / 2 ^ 96)%N).
  { unfold generate_corpus_id. change 32 with (8 + 24). rewrite take_hex_pad.
    f_equal. }
  rewrite Hid. split; [apply length_hex_pad|]. split; [apply hex_pad_lower_hex|].
  split; [done|]. apply N.Div0.div_lt_upper_bound.
  change (2 ^ 96 * 2 ^ 32)%N with (2 ^ 128)%N. exact Hu.
Qed.

Lemma corpus_id_eight_hex_digits_witness :
  String.length (generate_corpus_id 24197857203266734884469844682461802258) = 8 ∧
  all_chars is_lower_hex (generate_corpus_id 24197857203266734884469844682461802258) = true ∧
  generate_corpus_id 24197857203266734884469844682461802258 =
    hex_pad 8 (24197857203266734884469844682461802258 / 2 ^ 96)%N ∧
  (24197857203266734884469844682461802258 / 2 ^ 96 < 2 ^ 32)%N.
Proof.
  apply (corpus_id_eight_hex_digits 24197857203266734884469844682461802258).
  reflexivity.
Defined.
